(** * The review / revision workflow of the presentation-plan agent

    A shallow embedding of [ppt_agent] (the plan schema of
    [schemas/slides.py], the workflow state of [graph/state.py], the node and
    routing functions of [graph/nodes.py], the graph of [graph/workflow.py]
    and the two drivers of [agent.py]), followed by the properties proved
    about it.

    Conventions of the embedding.
    - A Python [str] is the [string] of its UTF-8 bytes, so the literals of
      the source are the literals below, byte for byte.
    - A Python [int] is a [Z]; the counter of [enumerate] is a [nat].
    - An awaited call to a collaborator (the language-model chain, the
      Google Slides service) is a value of type [result]: either what the
      call returned or the text [str(e)] of the exception it raised.  The
      node functions [analyze_document], [generate_plan] and [revise_plan]
      below are the [try] statement of the node, given the outcome of the
      chain; what the node does before its [try] is in [call_node].
    - A node returns a dict of channel writes; it is a list of [write]s that
      the runner merges into the state with [apply_update].
    - What the nodes print to the console, and the prompts they send to the
      language model, do not reach the state and are left out. *)

From Stdlib Require Import ZArith List String Ascii Bool Lia.
From Stdlib Require Import Decimal DecimalString DecimalNat DecimalZ.
Import ListNotations.

#[local] Open Scope string_scope.
#[local] Open Scope Z_scope.

(* ================================================================= *)
(** ** Python string operations used by the source *)

Module Py.

(** The string whose bytes are [l]. *)
Definition bytes (l : list nat) : string :=
  string_of_list_ascii (map ascii_of_nat l).

(** ["\n"] *)
Definition nl : string := bytes [10%nat].

Fixpoint rev_onto (s acc : string) : string :=
  match s with
  | EmptyString => acc
  | String c s' => rev_onto s' (String c acc)
  end.

Definition rev (s : string) : string := rev_onto s "".

(** [s * n] *)
Fixpoint repeat (s : string) (n : nat) : string :=
  match n with
  | O => ""
  | S n' => s ++ repeat s n'
  end.

(** [sep.join(l)] *)
Fixpoint join (sep : string) (l : list string) : string :=
  match l with
  | [] => ""
  | [x] => x
  | x :: tl => x ++ sep ++ join sep tl
  end.

(** [str(i)] for an [int]. *)
Definition str_of_int (z : Z) : string := NilZero.string_of_int (Z.to_int z).

(** [str(i)] for a non-negative counter. *)
Definition str_of_nat (n : nat) : string := NilEmpty.string_of_uint (Nat.to_uint n).

(** [f"{s:w}"] for a string: left-aligned, padded with spaces up to [w]. *)
Definition ljust (w : nat) (s : string) : string :=
  s ++ repeat " " (w - String.length s).

(** [f"{i:w}"] for an integer: right-aligned, padded with spaces up to [w]. *)
Definition rjust (w : nat) (s : string) : string :=
  repeat " " (w - String.length s) ++ s.

(** [s.lower()].  ASCII capitals become small letters.  Cased letters
    outside ASCII are left as they are: the only code points that Python
    lowers to an ASCII letter are U+212A (to k) and U+0130 (to i followed by
    U+0307), so comparing the result with a keyword made of other ASCII
    letters gives the same answer here as in Python. *)
Definition lower_char (c : ascii) : ascii :=
  let n := nat_of_ascii c in
  if ((65 <=? n) && (n <=? 90))%nat then ascii_of_nat (n + 32) else c.

Fixpoint lower (s : string) : string :=
  match s with
  | EmptyString => EmptyString
  | String c s' => String (lower_char c) (lower s')
  end.

(** [s.upper()], on the ASCII strings it is applied to (the values of
    [SlideType]). *)
Definition upper_char (c : ascii) : ascii :=
  let n := nat_of_ascii c in
  if ((97 <=? n) && (n <=? 122))%nat then ascii_of_nat (n - 32) else c.

Fixpoint upper (s : string) : string :=
  match s with
  | EmptyString => EmptyString
  | String c s' => String (upper_char c) (upper s')
  end.

(** The characters that [str.strip()] removes (those with [isspace()]), in
    UTF-8: U+0009..U+000D, U+001C..U+0020, U+0085, U+00A0, U+1680,
    U+2000..U+200A, U+2028, U+2029, U+202F, U+205F, U+3000. *)
Definition whitespace : list string :=
  map bytes
    [ [9]; [10]; [11]; [12]; [13]; [28]; [29]; [30]; [31]; [32];
      [194; 133]; [194; 160]; [225; 154; 128];
      [226; 128; 128]; [226; 128; 129]; [226; 128; 130]; [226; 128; 131];
      [226; 128; 132]; [226; 128; 133]; [226; 128; 134]; [226; 128; 135];
      [226; 128; 136]; [226; 128; 137]; [226; 128; 138];
      [226; 128; 168]; [226; 128; 169]; [226; 128; 175];
      [226; 129; 159]; [227; 128; 128] ]%nat.

(** [Some rest] when [s = p ++ rest]. *)
Fixpoint drop_prefix (p s : string) : option string :=
  match p, s with
  | EmptyString, _ => Some s
  | String a p', String b s' =>
      if Ascii.eqb a b then drop_prefix p' s' else None
  | String _ _, EmptyString => None
  end.

(** Removes one of the prefixes [ps] from [s], if one is there. *)
Fixpoint drop_one_of (ps : list string) (s : string) : option string :=
  match ps with
  | [] => None
  | p :: ps' =>
      match drop_prefix p s with
      | Some r => Some r
      | None => drop_one_of ps' s
      end
  end.

Fixpoint lstrip_with (ps : list string) (fuel : nat) (s : string) : string :=
  match fuel with
  | O => s
  | S fuel' =>
      match drop_one_of ps s with
      | Some r => lstrip_with ps fuel' r
      | None => s
      end
  end.

(** [s.lstrip()], [s.rstrip()] and [s.strip()]. *)
Definition lstrip (s : string) : string :=
  lstrip_with whitespace (String.length s) s.

Definition rstrip (s : string) : string :=
  rev (lstrip_with (map rev whitespace) (String.length s) (rev s)).

Definition strip (s : string) : string := rstrip (lstrip s).

(** Truth value of a [str]: the empty string is falsy. *)
Definition truthy (s : string) : bool :=
  match s with
  | EmptyString => false
  | String _ _ => true
  end.

(** Truth value of a [str | None]. *)
Definition truthy_opt (o : option string) : bool :=
  match o with
  | Some s => truthy s
  | None => false
  end.

(** [a or b] on [str | None]. *)
Definition or_else (a b : option string) : option string :=
  if truthy_opt a then a else b.

End Py.

(* ================================================================= *)
(** ** schemas/slides.py *)

Inductive SlideType : Type :=
| TITLE | AGENDA | CONTENT | KEY_POINTS | SECTION_HEADER | CLOSING.

(** [SlideType.X.value] *)
Definition SlideType_value (t : SlideType) : string :=
  match t with
  | TITLE => "title"
  | AGENDA => "agenda"
  | CONTENT => "content"
  | KEY_POINTS => "key_points"
  | SECTION_HEADER => "section_header"
  | CLOSING => "closing"
  end.

(** The six slide classes.  Each fixes its discriminator [slide_type] by a
    [Literal] type, so the variant is the discriminator.  A [dict[str, str]]
    is the list of its items in insertion order. *)
Inductive Slide : Type :=
| TitleSlide (speaker_notes title subtitle author date : string)
| AgendaSlide (speaker_notes title : string) (items : list string)
| ContentSlide (speaker_notes title body image_suggestion : string)
| KeyPointsSlide (speaker_notes title : string)
                 (points : list (list (string * string)))
| SectionHeaderSlide (speaker_notes title subtitle : string)
| ClosingSlide (speaker_notes title message : string).

Definition slide_type (slide : Slide) : SlideType :=
  match slide with
  | TitleSlide _ _ _ _ _ => TITLE
  | AgendaSlide _ _ _ => AGENDA
  | ContentSlide _ _ _ _ => CONTENT
  | KeyPointsSlide _ _ _ => KEY_POINTS
  | SectionHeaderSlide _ _ _ => SECTION_HEADER
  | ClosingSlide _ _ _ => CLOSING
  end.

(** [getattr(slide, "title", slide.slide_type.value)]: every variant has a
    [title] field, so the default is never taken. *)
Definition slide_title (slide : Slide) : string :=
  match slide with
  | TitleSlide _ t _ _ _ => t
  | AgendaSlide _ t _ => t
  | ContentSlide _ t _ _ => t
  | KeyPointsSlide _ t _ => t
  | SectionHeaderSlide _ t _ => t
  | ClosingSlide _ t _ => t
  end.

Record PresentationPlan : Type := mkPlan {
  title : string;
  description : string;
  target_audience : string;
  estimated_duration_minutes : Z;
  slides : list Slide
}.

Definition get_slide_count (self : PresentationPlan) : nat :=
  List.length (slides self).

(** [enumerate(l, start)] *)
Fixpoint enumerate {A : Type} (start : nat) (l : list A) : list (nat * A) :=
  match l with
  | [] => []
  | x :: tl => (start, x) :: enumerate (S start) tl
  end.

(** One line of the slide structure:
    [f"{i:2}. [{slide.slide_type.value:15}] {slide_title}"]. *)
Definition slide_line (i : nat) (slide : Slide) : string :=
  Py.rjust 2 (Py.str_of_nat i) ++ ". ["
    ++ Py.ljust 15 (SlideType_value (slide_type slide)) ++ "] "
    ++ slide_title slide.

Definition summary_header (self : PresentationPlan) : list string :=
  [ "Presentation: " ++ title self;
    "Slides: " ++ Py.str_of_nat (get_slide_count self);
    "Duration: ~" ++ Py.str_of_int (estimated_duration_minutes self) ++ " minutes";
    "";
    "Slide Structure:";
    Py.repeat "-" 40 ].

Definition summary_lines (self : PresentationPlan) : list string :=
  summary_header self
    ++ map (fun '(i, slide) => slide_line i slide) (enumerate 1 (slides self)).

Definition get_slide_summary (self : PresentationPlan) : string :=
  Py.join Py.nl (summary_lines self).

(* ================================================================= *)
(** ** graph/state.py *)

Inductive PlanStatus : Type :=
| PENDING | DRAFT | REVISION_REQUESTED | APPROVED | REJECTED.

Module DocumentAnalysis.
Record t : Type := mk {
  main_topic : string;
  key_sections : list string;
  technical_highlights : list string;
  economic_highlights : list string;
  target_audience : string;
  suggested_tone : string
}.
End DocumentAnalysis.

Inductive BaseMessage : Type :=
| AIMessage (content : string)
| HumanMessage (content : string)
| SystemMessage (content : string).

Record AgentState : Type := mkState {
  document : string;
  document_analysis : option DocumentAnalysis.t;
  presentation_plan : option PresentationPlan;
  status : PlanStatus;
  user_feedback : string;
  revision_count : Z;
  max_revisions : Z;
  messages : list BaseMessage;
  error : option string
}.

(** [AgentState(document=document)]: every other field at its default. *)
Definition initial_state (doc : string) : AgentState :=
  {| document := doc;
     document_analysis := None;
     presentation_plan := None;
     status := PENDING;
     user_feedback := "";
     revision_count := 0;
     max_revisions := 5;
     messages := [];
     error := None |}.

(** One entry of the dict a node returns (or of the input dict of a resumed
    invocation): the channel and the value written to it. *)
Inductive write : Type :=
| W_document_analysis (v : option DocumentAnalysis.t)
| W_presentation_plan (v : option PresentationPlan)
| W_status (v : PlanStatus)
| W_user_feedback (v : string)
| W_revision_count (v : Z)
| W_messages (v : list BaseMessage)
| W_error (v : option string).

Definition update : Type := list write.

(** The reducer of the [messages] channel appends; messages built by the
    nodes carry no id of their own, so none replaces an earlier one. *)
Definition add_messages (left right : list BaseMessage) : list BaseMessage :=
  left ++ right.

(** Every channel but [messages] keeps the last value written. *)
Definition apply_write (s : AgentState) (w : write) : AgentState :=
  match w with
  | W_document_analysis v =>
      mkState (document s) v (presentation_plan s) (status s) (user_feedback s)
        (revision_count s) (max_revisions s) (messages s) (error s)
  | W_presentation_plan v =>
      mkState (document s) (document_analysis s) v (status s) (user_feedback s)
        (revision_count s) (max_revisions s) (messages s) (error s)
  | W_status v =>
      mkState (document s) (document_analysis s) (presentation_plan s) v
        (user_feedback s) (revision_count s) (max_revisions s) (messages s)
        (error s)
  | W_user_feedback v =>
      mkState (document s) (document_analysis s) (presentation_plan s)
        (status s) v (revision_count s) (max_revisions s) (messages s)
        (error s)
  | W_revision_count v =>
      mkState (document s) (document_analysis s) (presentation_plan s)
        (status s) (user_feedback s) v (max_revisions s) (messages s)
        (error s)
  | W_messages v =>
      mkState (document s) (document_analysis s) (presentation_plan s)
        (status s) (user_feedback s) (revision_count s) (max_revisions s)
        (add_messages (messages s) v) (error s)
  | W_error v =>
      mkState (document s) (document_analysis s) (presentation_plan s)
        (status s) (user_feedback s) (revision_count s) (max_revisions s)
        (messages s) v
  end.

Definition apply_update (s : AgentState) (u : update) : AgentState :=
  fold_left apply_write u s.

(** Whether the update writes the [error] channel. *)
Definition writes_error (u : update) : bool :=
  existsb (fun w => match w with W_error _ => true | _ => false end) u.

(* ================================================================= *)
(** ** graph/nodes.py *)

(** Outcome of a call into a collaborator made inside [try]. *)
Inductive result (A : Type) : Type :=
| Returned (a : A)
| Raised (e : string).
Arguments Returned {A} a.
Arguments Raised {A} e.

(** What a node finds outside the state when it runs: the outcome of the
    language-model chain for the schema it asks for, the two environment
    variables read by [finalize_plan], and the outcome of
    [GoogleSlidesService().create_presentation(plan)['url']]. *)
Record World : Type := mkWorld {
  analysis_chain : result DocumentAnalysis.t;
  plan_chain : result PresentationPlan;
  GOOGLE_CREDENTIALS_PATH : option string;
  GOOGLE_SERVICE_ACCOUNT_PATH : option string;
  create_presentation_url : result string
}.

(** The [try] statement of [analyze_document], given the outcome [chain] of
    [chain.ainvoke({})]; the client and the prompt are built before it (see
    [call_node]). *)
Definition analyze_document (chain : result DocumentAnalysis.t)
    (state : AgentState) : update :=
  match chain with
  | Returned analysis =>
      [ W_document_analysis (Some analysis);
        W_messages
          [AIMessage ("He analizado el documento. Tema principal: "
                      ++ DocumentAnalysis.main_topic analysis)] ]
  | Raised e =>
      [ W_error (Some ("Failed to analyze document: " ++ e));
        W_messages [AIMessage ("Error analyzing document: " ++ e)] ]
  end.

(** The [try] statement of [generate_plan], given the outcome [chain] of
    [chain.ainvoke({})]; the client and the prompt are built before it (see
    [call_node]). *)
Definition generate_plan (chain : result PresentationPlan)
    (state : AgentState) : update :=
  match chain with
  | Returned plan =>
      [ W_presentation_plan (Some plan);
        W_status DRAFT;
        W_messages
          [AIMessage ("He creado un plan de presentación con "
                      ++ Py.str_of_nat (get_slide_count plan)
                      ++ " diapositivas." ++ Py.nl ++ Py.nl
                      ++ get_slide_summary plan)] ]
  | Raised e =>
      [ W_error (Some ("Failed to generate plan: " ++ e));
        W_status PENDING;
        W_messages [AIMessage ("Error generating plan: " ++ e)] ]
  end.

(** The [try] statement of [revise_plan], given the outcome [chain] of
    [chain.ainvoke({})]; the client and the prompt are built before it (see
    [call_node]). *)
Definition revise_plan (chain : result PresentationPlan)
    (state : AgentState) : update :=
  match chain with
  | Returned revised_plan =>
      [ W_presentation_plan (Some revised_plan);
        W_status DRAFT;
        W_revision_count (revision_count state + 1);
        W_user_feedback "";
        W_messages
          [AIMessage ("He revisado el plan de presentación basándome en tus comentarios."
                      ++ Py.nl ++ Py.nl ++ get_slide_summary revised_plan)] ]
  | Raised e =>
      [ W_error (Some ("Failed to revise plan: " ++ e));
        W_messages [AIMessage ("Error revising plan: " ++ e)] ]
  end.

Definition finalize_plan (w : World) (state : AgentState) : update :=
  match presentation_plan state with
  | None =>
      [ W_error (Some "No plan to finalize");
        W_messages [AIMessage "Error: No plan available to finalize."] ]
  | Some plan =>
      let google_credentials :=
        Py.or_else (GOOGLE_CREDENTIALS_PATH w) (GOOGLE_SERVICE_ACCOUNT_PATH w) in
      let slides_message :=
        if Py.truthy_opt google_credentials then
          match create_presentation_url w with
          | Returned url =>
              Py.nl ++ Py.nl ++ "🔗 **Google Slides Created:**" ++ Py.nl ++ url
          | Raised e =>
              Py.nl ++ Py.nl ++ "⚠️ Could not create Google Slides: " ++ e
          end
        else
          Py.nl ++ Py.nl
            ++ "💡 Configure GOOGLE_CREDENTIALS_PATH to auto-generate Google Slides."
      in
      [ W_status APPROVED;
        W_messages
          [AIMessage ("✅ Plan approved and finalized!" ++ Py.nl ++ Py.nl
                      ++ get_slide_summary plan ++ slides_message)] ]
  end.

Definition handle_rejection (state : AgentState) : update :=
  [ W_status REJECTED;
    W_messages
      [AIMessage "El plan de presentación ha sido rechazado. Puedes comenzar de nuevo con un nuevo documento o proporcionar diferentes requisitos."] ].

(** The strings [should_continue_review] returns. *)
Inductive ReviewRoute : Type :=
| R_finalize | R_reject | R_max_revisions | R_revise.

Definition should_continue_review (state : AgentState) : ReviewRoute :=
  let feedback := Py.strip (Py.lower (user_feedback state)) in
  if (feedback =? "aprobar")%string then R_finalize
  else if (feedback =? "rechazar")%string then R_reject
  else if revision_count state >=? max_revisions state then R_max_revisions
  else R_revise.

(** The strings [check_for_errors] returns. *)
Inductive ErrorRoute : Type :=
| E_error | E_continue.

Definition check_for_errors (state : AgentState) : ErrorRoute :=
  if Py.truthy_opt (error state) then E_error else E_continue.

(** *** present_for_review *)

(** A value of [slide.model_dump()]. *)
Inductive DumpItem : Type :=
| ItemStr (s : string)
| ItemDict (d : list (string * string)).

Inductive DumpValue : Type :=
| ValStr (s : string)
| ValList (l : list DumpItem).

(** [slide.model_dump()] without its first entry, the discriminator
    [slide_type], which is the one key the loop of [present_for_review]
    skips: the other fields in declaration order, those of [SlideBase]
    first. *)
Definition model_dump (slide : Slide) : list (string * DumpValue) :=
  match slide with
  | TitleSlide notes t subtitle author date =>
      [ ("speaker_notes", ValStr notes);
        ("title", ValStr t); ("subtitle", ValStr subtitle);
        ("author", ValStr author); ("date", ValStr date) ]
  | AgendaSlide notes t items =>
      [ ("speaker_notes", ValStr notes);
        ("title", ValStr t); ("items", ValList (map ItemStr items)) ]
  | ContentSlide notes t body image_suggestion =>
      [ ("speaker_notes", ValStr notes);
        ("title", ValStr t); ("body", ValStr body);
        ("image_suggestion", ValStr image_suggestion) ]
  | KeyPointsSlide notes t points =>
      [ ("speaker_notes", ValStr notes);
        ("title", ValStr t); ("points", ValList (map ItemDict points)) ]
  | SectionHeaderSlide notes t subtitle =>
      [ ("speaker_notes", ValStr notes);
        ("title", ValStr t); ("subtitle", ValStr subtitle) ]
  | ClosingSlide notes t message =>
      [ ("speaker_notes", ValStr notes);
        ("title", ValStr t); ("message", ValStr message) ]
  end.

Definition dump_truthy (v : DumpValue) : bool :=
  match v with
  | ValStr s => Py.truthy s
  | ValList l => match l with [] => false | _ :: _ => true end
  end.

(** The double quote character. *)
Definition dq : string := Py.bytes [34%nat].

(** [REVIEW_PLAN_TEMPLATE.format(summary=..., detailed_view=...,
    remaining_revisions=...)] of [prompts/templates_esp.py]. *)
Definition REVIEW_PLAN_TEMPLATE (summary detailed_view : string)
    (remaining_revisions : Z) : string :=
  Py.join Py.nl
    [ "";
      "## Revisión del Plan de Presentación";
      "";
      summary;
      "";
      "## Contenido Detallado de las Diapositivas:";
      detailed_view;
      "";
      "---";
      "**Por favor, revisa el plan anterior y responde con una de las siguientes opciones:**";
      "- **" ++ dq ++ "aprobar" ++ dq ++ "** - Aceptar este plan y continuar";
      "- **" ++ dq ++ "rechazar" ++ dq ++ "** - Rechazar este plan por completo";
      "- **Tus comentarios** - Proporcionar cambios específicos que te gustaría hacer";
      "";
      "Revisiones restantes: " ++ Py.str_of_int remaining_revisions;
      "" ].

Section Workflow.

(** [json.dumps] on a [dict[str, str]], from the Python library. *)
Variable json_dumps : list (string * string) -> string.

Definition detailed_item (item : DumpItem) : string :=
  match item with
  | ItemDict d => "    • " ++ json_dumps d
  | ItemStr s => "    • " ++ s
  end.

Definition detailed_field (kv : string * DumpValue) : list string :=
  let '(key, value) := kv in
  if negb (key =? "slide_type")%string && dump_truthy value then
    match value with
    | ValList l => ("  - " ++ key ++ ":") :: map detailed_item l
    | ValStr s => ["  - " ++ key ++ ": " ++ s]
    end
  else [].

Definition detailed_slide (i : nat) (slide : Slide) : list string :=
  (Py.nl ++ "### Slide " ++ Py.str_of_nat i ++ ": "
     ++ Py.upper (SlideType_value (slide_type slide)))
    :: flat_map detailed_field (model_dump slide).

Definition present_for_review (state : AgentState) : update :=
  match presentation_plan state with
  | None => [ W_messages [AIMessage "No hay un plan disponible para revisión."] ]
  | Some plan =>
      let summary := get_slide_summary plan in
      let detailed_slides :=
        flat_map (fun '(i, slide) => detailed_slide i slide)
                 (enumerate 1 (slides plan)) in
      let detailed_view := Py.join Py.nl detailed_slides in
      let review_message :=
        REVIEW_PLAN_TEMPLATE summary detailed_view
          (max_revisions state - revision_count state) in
      [ W_messages [AIMessage review_message] ]
  end.

(* ================================================================= *)
(** ** graph/workflow.py *)

(** The nodes added to the graph. *)
Inductive Node : Type :=
| N_analyze_document
| N_generate_plan
| N_present_for_review
| N_revise_plan
| N_finalize_plan
| N_handle_rejection.

(** Where an edge leads: to a node or to [END]. *)
Inductive Target : Type :=
| To (n : Node)
| END.

(** The function registered under each node name. *)
Definition run_node (n : Node) (w : World) (state : AgentState) : update :=
  match n with
  | N_analyze_document => analyze_document (analysis_chain w) state
  | N_generate_plan => generate_plan (plan_chain w) state
  | N_present_for_review => present_for_review state
  | N_revise_plan => revise_plan (plan_chain w) state
  | N_finalize_plan => finalize_plan w state
  | N_handle_rejection => handle_rejection state
  end.

Definition entry_point : Node := N_analyze_document.

(** The mapping of the conditional edges leaving [present_for_review]. *)
Definition review_edges (r : ReviewRoute) : Target :=
  match r with
  | R_finalize => To N_finalize_plan
  | R_reject => To N_handle_rejection
  | R_revise => To N_revise_plan
  | R_max_revisions => To N_finalize_plan
  end.

(** The mapping shared by the conditional edges leaving [analyze_document],
    [generate_plan] and [revise_plan]: [{"error": END, "continue": next}]. *)
Definition error_edges (next : Node) (r : ErrorRoute) : Target :=
  match r with
  | E_error => END
  | E_continue => To next
  end.

(** The node that follows [present_for_review] in state [state]. *)
Definition review_decision (state : AgentState) : Target :=
  review_edges (should_continue_review state).

(** Where the runner stands: about to run a node, suspended by
    [interrupt_after=["present_for_review"]], or at [END]. *)
Inductive Position : Type :=
| Run (n : Node)
| Interrupted
| Ended.

Definition position_of (t : Target) : Position :=
  match t with
  | To n => Run n
  | END => Ended
  end.

Definition Config : Type := (Position * AgentState)%type.

(** Where the runner goes once node [n] has left the state [after]. *)
Definition successor (n : Node) (after : AgentState) : Position :=
  match n with
  | N_analyze_document =>
      position_of (error_edges N_generate_plan (check_for_errors after))
  | N_generate_plan =>
      position_of (error_edges N_present_for_review (check_for_errors after))
  | N_present_for_review => Interrupted
  | N_revise_plan =>
      position_of (error_edges N_present_for_review (check_for_errors after))
  | N_finalize_plan => Ended
  | N_handle_rejection => Ended
  end.

(** Runs node [n] in world [w] and merges the update it returns. *)
Definition exec_node (n : Node) (w : World) (state : AgentState) : Config :=
  let after := apply_update state (run_node n w state) in
  (successor n after, after).

(** What a call of a node comes to: the dict it returns, or an exception
    that leaves the node. *)
Inductive NodeCall : Type :=
| Returns (u : update)
| Escapes (e : string).

(** The nodes that build a model client, with [get_structured_llm], before
    their [try]. *)
Definition uses_client (n : Node) : bool :=
  match n with
  | N_analyze_document | N_generate_plan | N_revise_plan => true
  | N_present_for_review | N_finalize_plan | N_handle_rejection => false
  end.

(** A call of node [n] as a whole.  [analyze_document], [generate_plan] and
    [revise_plan] build their client and their prompt before [try]; an
    exception raised there ([client = Some e]: no provider configured, for
    one) is not caught: it leaves the node, which returns no update.  With
    the client built ([client = None]) the node is its [try] statement, which
    always returns a dict. *)
Definition call_node (n : Node) (client : option string) (w : World)
    (state : AgentState) : NodeCall :=
  match client with
  | Some e => if uses_client n then Escapes e else Returns (run_node n w state)
  | None => Returns (run_node n w state)
  end.

(** An invocation with the input [{"user_feedback": feedback}] that goes on
    at the router: the input is merged into the state and the conditional
    edge that follows [present_for_review] picks the next node.  This is the
    review cycle that the docstring of [create_graph] describes. *)
Definition resume (feedback : string) (state : AgentState) : Config :=
  let state' := apply_update state [W_user_feedback feedback] in
  (position_of (review_decision state'), state').

(** An invocation with the input [{"user_feedback": feedback}] that starts
    the graph again at its entry point, on the state merged with the
    input. *)
Definition restart (feedback : string) (state : AgentState) : Config :=
  (Run entry_point, apply_update state [W_user_feedback feedback]).

(** One move of a session: a node runs and its update is merged, or a driver
    invokes the graph with a feedback.  The drivers of [agent.py] do so
    wherever the session stands: [submit_feedback] checks nothing, and the
    loop of [run_agent] only that the status is [DRAFT], which it still is at
    [END] after a failed revision.  What an invocation with an input then
    does is decided by the graph library and by the checkpointer it is
    given, not by this repository: [compile_graph] configures none, and then
    the input, which lacks [document], is refused and the session does not
    move; on a thread with a checkpoint the library starts the graph again
    at the entry point.  The relation allows both ways on, [resume] and
    [restart], from every position, so what is proved for [reachable] holds
    whichever of them the library takes.  An exception that leaves a node
    (see [call_node]) moves nothing. *)
Inductive step : Config -> Config -> Prop :=
| step_node (n : Node) (w : World) (state : AgentState) :
    step (Run n, state) (exec_node n w state)
| step_resume (pos : Position) (feedback : string) (state : AgentState) :
    step (pos, state) (resume feedback state)
| step_restart (pos : Position) (feedback : string) (state : AgentState) :
    step (pos, state) (restart feedback state).

(** Reflexive and transitive closure of [step], by the last move. *)
Inductive reachable (c0 : Config) : Config -> Prop :=
| reach_start : reachable c0 c0
| reach_step (c c' : Config) : reachable c0 c -> step c c' -> reachable c0 c'.

(** A session starts at the entry point with [AgentState(document=...)]. *)
Definition initial_config (doc : string) : Config :=
  (Run entry_point, initial_state doc).

(* ================================================================= *)
(** ** agent.py *)

(** One turn of the review loop of [run_agent]: the loop is left when the
    status is no longer [DRAFT]; a line that is empty once stripped is asked
    for again; any other line is handed, stripped, to the graph as the
    feedback ([Resumed c], with [c] where the review cycle then stands).
    [submit_feedback] hands its argument to the graph as it is. *)
Inductive Turn : Type :=
| LoopExit
| Reprompt
| Resumed (c : Config).

Definition run_agent_turn (line : string) (state : AgentState) : Turn :=
  match status state with
  | DRAFT =>
      let user_input := Py.strip line in
      if negb (Py.truthy user_input) then Reprompt
      else Resumed (resume user_input state)
  | _ => LoopExit
  end.

End Workflow.

(** Whether the call raised. *)
Definition raised {A : Type} (r : result A) : bool :=
  match r with
  | Returned _ => false
  | Raised _ => true
  end.

(** Whether node [n] fails in world [w] on [state]: its collaborator raised,
    or [finalize_plan] found no plan. *)
Definition node_fails (n : Node) (w : World) (state : AgentState) : bool :=
  match n with
  | N_analyze_document => raised (analysis_chain w)
  | N_generate_plan => raised (plan_chain w)
  | N_revise_plan => raised (plan_chain w)
  | N_finalize_plan =>
      match presentation_plan state with
      | None => true
      | Some _ => false
      end
  | N_present_for_review => false
  | N_handle_rejection => false
  end.

(* ================================================================= *)
(** ** A reader for the slide summary *)

(** Whether the string has a line break. *)
Fixpoint has_nl (s : string) : bool :=
  match s with
  | EmptyString => false
  | String c s' => Ascii.eqb c (ascii_of_nat 10) || has_nl s'
  end.

(** [s.split("\n")] *)
Fixpoint split_lines (s : string) : list string :=
  match s with
  | EmptyString => [""]
  | String c s' =>
      if Ascii.eqb c (ascii_of_nat 10) then "" :: split_lines s'
      else
        match split_lines s' with
        | [] => [String c ""]
        | l :: ls => String c l :: ls
        end
  end.

Definition is_digit (c : ascii) : bool :=
  let n := nat_of_ascii c in ((48 <=? n) && (n <=? 57))%nat.

(** The longest prefix of digits, and what follows it. *)
Fixpoint span_digits (s : string) : string * string :=
  match s with
  | EmptyString => ("", "")
  | String c s' =>
      if is_digit c then
        let '(digits, rest) := span_digits s' in (String c digits, rest)
      else ("", s)
  end.

Fixpoint drop_spaces (s : string) : string :=
  match s with
  | String c s' => if Ascii.eqb c " " then drop_spaces s' else s
  | EmptyString => s
  end.

(** Reads a non-empty string of decimal digits. *)
Definition parse_nat (s : string) : option nat :=
  match s with
  | EmptyString => None
  | String _ _ => option_map Nat.of_uint (NilEmpty.uint_of_string s)
  end.

Definition all_slide_types : list SlideType :=
  [TITLE; AGENDA; CONTENT; KEY_POINTS; SECTION_HEADER; CLOSING].

(** Reads ["[tag            ] title"], the tag in its field of width 15. *)
Fixpoint parse_tag_among (ts : list SlideType) (s : string)
    : option (SlideType * string) :=
  match ts with
  | [] => None
  | t :: ts' =>
      match Py.drop_prefix ("[" ++ Py.ljust 15 (SlideType_value t) ++ "] ") s with
      | Some rest => Some (t, rest)
      | None => parse_tag_among ts' s
      end
  end.

(** What one line of the slide structure says: index, type and title. *)
Definition SummaryEntry : Type := (nat * SlideType * string)%type.

Definition parse_slide_line (line : string) : option SummaryEntry :=
  let '(digits, rest) := span_digits (drop_spaces line) in
  match parse_nat digits, Py.drop_prefix ". " rest with
  | Some i, Some rest' =>
      match parse_tag_among all_slide_types rest' with
      | Some (t, slide_title) => Some (i, t, slide_title)
      | None => None
      end
  | _, _ => None
  end.

Fixpoint parse_slide_lines (lines : list string) : option (list SummaryEntry) :=
  match lines with
  | [] => Some []
  | line :: lines' =>
      match parse_slide_line line, parse_slide_lines lines' with
      | Some e, Some es => Some (e :: es)
      | _, _ => None
      end
  end.

Definition parse_slide_count (line : string) : option nat :=
  match Py.drop_prefix "Slides: " line with
  | Some digits => parse_nat digits
  | None => None
  end.

(** The lines before and the lines after the last line equal to [sep]. *)
Fixpoint split_at_last (sep : string) (ls : list string)
    : option (list string * list string) :=
  match ls with
  | [] => None
  | l :: ls' =>
      match split_at_last sep ls' with
      | Some (before, after) => Some (l :: before, after)
      | None => if (l =? sep)%string then Some ([], ls') else None
      end
  end.

(** Modelled from the spec: the repository has no function that reads a
    summary back, while section 8 of the spec asks that summarizing and
    then re-parsing a plan gives back its slide count and its slide order.
    This reader follows the layout of section 4.1.  The text is cut into
    lines at its line breaks.  The last line made of forty dashes ends the
    header; the slide count is read from the header line that stands four
    lines above it; every line below it is one slide, with its 1-based
    index, its type tag in a field of fixed width, and its title. *)
Definition parse_slide_summary (text : string)
    : option (nat * list SummaryEntry) :=
  match split_at_last (Py.repeat "-" 40) (split_lines text) with
  | Some (header, slide_lines) =>
      match List.rev header with
      | _ :: _ :: _ :: count_line :: _ =>
          match parse_slide_count count_line, parse_slide_lines slide_lines with
          | Some n, Some entries => Some (n, entries)
          | _, _ => None
          end
      | _ => None
      end
  | None => None
  end.

(** The slides of a plan as the summary should list them. *)
Definition slide_entries (self : PresentationPlan) : list SummaryEntry :=
  map (fun '(i, slide) => (i, slide_type slide, slide_title slide))
      (enumerate 1 (slides self)).

(** Two plans with one and with no slide whose titles carry line breaks. *)
Definition summary_tail : string :=
  Py.nl ++ "Slides: 0" ++ Py.nl ++ "Duration: ~30 minutes" ++ Py.nl ++ Py.nl
    ++ "Slide Structure:" ++ Py.nl ++ Py.repeat "-" 40.

Definition one_slide_plan : PresentationPlan :=
  {| title := "A";
     description := "";
     target_audience := "";
     estimated_duration_minutes := 30;
     slides := [TitleSlide "" ("Z" ++ summary_tail) "" "" ""] |}.

Definition no_slide_plan : PresentationPlan :=
  {| title :=
       "A" ++ Py.nl ++ "Slides: 1" ++ Py.nl ++ "Duration: ~30 minutes"
         ++ Py.nl ++ Py.nl ++ "Slide Structure:" ++ Py.nl ++ Py.repeat "-" 40
         ++ Py.nl ++ " 1. [title          ] Z";
     description := "";
     target_audience := "";
     estimated_duration_minutes := 30;
     slides := [] |}.

(** Two plans of two slides with plain plan titles, where a slide title
    carries a line break. *)
Definition title_then_closing : PresentationPlan :=
  {| title := "A";
     description := "";
     target_audience := "";
     estimated_duration_minutes := 30;
     slides :=
       [ TitleSlide "" ("a" ++ Py.nl ++ " 2. [title          ] b") "" "" "";
         ClosingSlide "" "c" "" ] |}.

Definition title_then_title : PresentationPlan :=
  {| title := "A";
     description := "";
     target_audience := "";
     estimated_duration_minutes := 30;
     slides :=
       [ TitleSlide "" "a" "" "" "";
         TitleSlide "" ("b" ++ Py.nl ++ " 2. [closing        ] c") "" "" "" ] |}.

(* ================================================================= *)
(** ** Invariants of the runner *)

(** The revision budget is respected, and [revise_plan] is only about to
    run while budget is left. *)
Definition budget_invariant (c : Config) : Prop :=
  revision_count (snd c) <= max_revisions (snd c) /\
  (fst c = Run N_revise_plan ->
   revision_count (snd c) < max_revisions (snd c)).

(** The statuses that the nodes write. *)
Definition written_status (st : PlanStatus) : Prop :=
  st = PENDING \/ st = DRAFT \/ st = APPROVED \/ st = REJECTED.

(* ================================================================= *)
(** ** Sample data used by the examples *)

Definition sample_plan : PresentationPlan :=
  {| title := "Cloud Migration";
     description := "";
     target_audience := "";
     estimated_duration_minutes := 30;
     slides :=
       [ TitleSlide "" "Cloud Migration" "" "" "";
         KeyPointsSlide "" "Why now" [[("title", "Cost"); ("description", "-40%")]];
         ClosingSlide "" "Thank You" "" ] |}.

(** A session suspended for review, with [feedback] just supplied. *)
Definition draft_state (feedback : string) (revisions : Z) : AgentState :=
  {| document := "proposal";
     document_analysis := None;
     presentation_plan := Some sample_plan;
     status := DRAFT;
     user_feedback := feedback;
     revision_count := revisions;
     max_revisions := 5;
     messages := [];
     error := None |}.

(** A world in which every collaborator answers. *)
Definition sample_world : World :=
  {| analysis_chain :=
       Returned (DocumentAnalysis.mk "cloud" [] [] [] "" "professional");
     plan_chain := Returned sample_plan;
     GOOGLE_CREDENTIALS_PATH := None;
     GOOGLE_SERVICE_ACCOUNT_PATH := None;
     create_presentation_url := Raised "unused" |}.

(** A world with a rendering credential whose rendering call raises. *)
Definition failing_render_world : World :=
  {| analysis_chain := Raised "unused";
     plan_chain := Raised "unused";
     GOOGLE_CREDENTIALS_PATH := Some "credentials.json";
     GOOGLE_SERVICE_ACCOUNT_PATH := None;
     create_presentation_url := Raised "quota exceeded" |}.

(** A session whose analysis failed earlier, about to run a node again. *)
Definition stale_error_state : AgentState :=
  {| document := "proposal";
     document_analysis := None;
     presentation_plan := None;
     status := PENDING;
     user_feedback := "";
     revision_count := 0;
     max_revisions := 5;
     messages := [AIMessage "Error analyzing document: timeout"];
     error := Some "Failed to analyze document: timeout" |}.

(** Whether [finalize_plan] finds a rendering credential. *)
Definition credential_configured (w : World) : bool :=
  Py.truthy_opt
    (Py.or_else (GOOGLE_CREDENTIALS_PATH w) (GOOGLE_SERVICE_ACCOUNT_PATH w)).

Definition no_json : list (string * string) -> string := fun _ => "{}".

(** A run of a session: analysis, plan, review, a request for changes and
    one revision. *)
Definition after_analysis : Config :=
  exec_node no_json N_analyze_document sample_world (initial_state "proposal").

Definition after_generation : Config :=
  exec_node no_json N_generate_plan sample_world (snd after_analysis).

Definition after_review : Config :=
  exec_node no_json N_present_for_review sample_world (snd after_generation).

Definition after_feedback : Config :=
  resume "change slide 3" (snd after_review).

Definition after_revision : Config :=
  exec_node no_json N_revise_plan sample_world (snd after_feedback).

(* ================================================================= *)
(** ** services/google_slides.py *)

(** The requests of a batch update.  A placeholder mapping
    [{"layoutPlaceholder": {"type": t}, "objectId": id}] is the pair
    [(t, id)]. *)
Inductive Request : Type :=
| createSlide (objectId predefinedLayout : string)
              (placeholderIdMappings : list (string * string))
| insertText (objectId text : string)
| deleteObject (objectId : string).

(** [d.get(key, default)] on a [dict[str, str]]. *)
Fixpoint dict_get (d : list (string * string)) (key default : string) : string :=
  match d with
  | [] => default
  | (k, v) :: d' => if (k =? key)%string then v else dict_get d' key default
  end.

(** The non-empty strings of a list, as the chain of [if x: parts.append(x)]
    collects them. *)
Definition truthy_parts (l : list string) : list string :=
  filter Py.truthy l.

Definition _create_title_slide (title subtitle author date slide_id : string)
    : list Request :=
  let title_id := slide_id ++ "_title" in
  let subtitle_id := slide_id ++ "_subtitle" in
  let requests :=
    [ createSlide slide_id "TITLE"
        [("CENTERED_TITLE", title_id); ("SUBTITLE", subtitle_id)];
      insertText title_id title ] in
  let subtitle_parts := truthy_parts [subtitle; author; date] in
  match subtitle_parts with
  | [] => requests
  | _ :: _ =>
      requests ++ [insertText subtitle_id (Py.join Py.nl subtitle_parts)]
  end.

Definition _create_agenda_slide (title : string) (items : list string)
    (slide_id : string) : list Request :=
  let title_id := slide_id ++ "_title" in
  let body_id := slide_id ++ "_body" in
  let body_text := Py.join Py.nl (map (fun item => "• " ++ item) items) in
  [ createSlide slide_id "TITLE_AND_BODY"
      [("TITLE", title_id); ("BODY", body_id)];
    insertText title_id title;
    insertText body_id body_text ].

Definition _create_content_slide (title body slide_id : string)
    : list Request :=
  let title_id := slide_id ++ "_title" in
  let body_id := slide_id ++ "_body" in
  [ createSlide slide_id "TITLE_AND_BODY"
      [("TITLE", title_id); ("BODY", body_id)];
    insertText title_id title;
    insertText body_id body ].

(** The lines that one key point adds to the body. *)
Definition key_point_lines (point : list (string * string)) : list string :=
  let point_title := dict_get point "title" "" in
  let point_desc := dict_get point "description" "" in
  if Py.truthy point_title then
    ("• " ++ point_title)
      :: (if Py.truthy point_desc then ["  " ++ point_desc] else [])
  else [].

Definition _create_key_points_slide (title : string)
    (points : list (list (string * string))) (slide_id : string)
    : list Request :=
  let title_id := slide_id ++ "_title" in
  let body_id := slide_id ++ "_body" in
  let body_lines := flat_map key_point_lines points in
  let body_text := Py.join Py.nl body_lines in
  [ createSlide slide_id "TITLE_AND_BODY"
      [("TITLE", title_id); ("BODY", body_id)];
    insertText title_id title;
    insertText body_id body_text ].

Definition _create_section_header_slide (title subtitle slide_id : string)
    : list Request :=
  let title_id := slide_id ++ "_title" in
  let title_text :=
    if Py.truthy subtitle then title ++ Py.nl ++ Py.nl ++ subtitle
    else title in
  [ createSlide slide_id "SECTION_HEADER" [("TITLE", title_id)];
    insertText title_id title_text ].

Definition _create_closing_slide (title message slide_id : string)
    : list Request :=
  let title_id := slide_id ++ "_title" in
  let subtitle_id := slide_id ++ "_subtitle" in
  let requests :=
    [ createSlide slide_id "TITLE"
        [("CENTERED_TITLE", title_id); ("SUBTITLE", subtitle_id)];
      insertText title_id title ] in
  if Py.truthy message then requests ++ [insertText subtitle_id message]
  else requests.

(** [f"slide_{index}"] *)
Definition slide_object_id (index : nat) : string :=
  "slide_" ++ Py.str_of_nat index.

Definition _create_slide_requests (slide : Slide) (index : nat)
    : list Request :=
  let slide_id := slide_object_id index in
  match slide with
  | TitleSlide _ t subtitle author date =>
      _create_title_slide t subtitle author date slide_id
  | AgendaSlide _ t items => _create_agenda_slide t items slide_id
  | ContentSlide _ t body _ => _create_content_slide t body slide_id
  | KeyPointsSlide _ t points => _create_key_points_slide t points slide_id
  | SectionHeaderSlide _ t subtitle =>
      _create_section_header_slide t subtitle slide_id
  | ClosingSlide _ t message => _create_closing_slide t message slide_id
  end.

(** The requests that [create_presentation] sends in its batch update: those
    of every slide, numbered from 0, then the deletion of the blank slide
    the new presentation came with. *)
Definition batch_requests (plan : PresentationPlan)
    (default_slide_id : string) : list Request :=
  (flat_map (fun '(i, slide) => _create_slide_requests slide i)
            (enumerate 0 (slides plan))
     ++ [deleteObject default_slide_id])%list.

(** What the Slides API answers: to [presentations().create(...)] the id of
    the presentation and of its first slide, to [batchUpdate] nothing of
    use; either call may raise.  A failure to build the service, or an
    answer without these ids, is a failure of the first call. *)
Record SlidesApi : Type := mkSlidesApi {
  presentations_create : string -> result (string * string);
  presentations_batchUpdate : string -> list Request -> result unit
}.

(** The dict that [create_presentation] returns. *)
Record PresentationResult : Type := mkPresentationResult {
  result_presentation_id : string;
  result_url : string;
  result_title : string;
  result_slide_count : nat
}.

Definition create_presentation (api : SlidesApi) (plan : PresentationPlan)
    : result PresentationResult :=
  match presentations_create api (title plan) with
  | Raised e => Raised e
  | Returned (presentation_id, default_slide_id) =>
      let requests := batch_requests plan default_slide_id in
      let sent :=
        match requests with
        | [] => Returned tt
        | _ :: _ => presentations_batchUpdate api presentation_id requests
        end in
      match sent with
      | Raised e => Raised e
      | Returned _ =>
          Returned
            {| result_presentation_id := presentation_id;
               result_url :=
                 "https://docs.google.com/presentation/d/" ++ presentation_id
                   ++ "/edit";
               result_title := title plan;
               result_slide_count := List.length (slides plan) |}
      end
  end.

(** The object ids a request creates, and the object id it affects. *)
Definition created_ids (r : Request) : list string :=
  match r with
  | createSlide objectId _ mappings => objectId :: map snd mappings
  | insertText _ _ => []
  | deleteObject _ => []
  end.

(** The placeholder ids that a request maps. *)
Definition mapped_placeholders (r : Request) : list string :=
  match r with
  | createSlide _ _ mappings => map snd mappings
  | insertText _ _ => []
  | deleteObject _ => []
  end.

Definition is_createSlide (r : Request) : bool :=
  match r with
  | createSlide _ _ _ => true
  | _ => false
  end.

(** Whether every [insertText] of the list writes into a placeholder that
    an earlier [createSlide] of the list has mapped; [known] are the
    placeholder ids mapped so far. *)
Fixpoint inserts_into_created (known : list string) (rs : list Request) : bool :=
  match rs with
  | [] => true
  | r :: rs' =>
      match r with
      | insertText objectId _ =>
          existsb (String.eqb objectId) known
          && inserts_into_created known rs'
      | _ => inserts_into_created (mapped_placeholders r ++ known) rs'
      end
  end.

(** A slide with its speaker notes replaced. *)
Definition with_speaker_notes (notes : string) (slide : Slide) : Slide :=
  match slide with
  | TitleSlide _ t subtitle author date => TitleSlide notes t subtitle author date
  | AgendaSlide _ t items => AgendaSlide notes t items
  | ContentSlide _ t body image => ContentSlide notes t body image
  | KeyPointsSlide _ t points => KeyPointsSlide notes t points
  | SectionHeaderSlide _ t subtitle => SectionHeaderSlide notes t subtitle
  | ClosingSlide _ t message => ClosingSlide notes t message
  end.

(* ================================================================= *)
(** ** One invocation of the graph *)

(** [graph.ainvoke]: nodes are called one after the other, the k-th with
    the client outcome [clients k] in the world [worlds k], until the runner
    is suspended or at [END] (the invocation returns, [Returned c]) or an
    exception leaves a node (the invocation raises it, [Raised e]).  [fuel]
    bounds the number of node calls. *)
Fixpoint invoke (json : list (string * string) -> string) (fuel : nat)
    (clients : nat -> option string) (worlds : nat -> World) (k : nat)
    (c : Config) : result Config :=
  match fuel with
  | O => Returned c
  | S fuel' =>
      match fst c with
      | Run n =>
          match call_node json n (clients k) (worlds k) (snd c) with
          | Returns u =>
              let after := apply_update (snd c) u in
              invoke json fuel' clients worlds (S k) (successor n after, after)
          | Escapes e => Raised e
          end
      | _ => Returned c
      end
  end.

(** Whether the runner has halted. *)
Definition halted (pos : Position) : bool :=
  match pos with
  | Run _ => false
  | _ => true
  end.

(** [l1] is a prefix of [l2]. *)
Definition is_prefix {A : Type} (l1 l2 : list A) : Prop :=
  exists rest : list A, l2 = (l1 ++ rest)%list.

(** The ASCII whitespace characters: tab, line feed, vertical tab, form
    feed, carriage return, the four separators U+001C..U+001F and the
    space. *)
Definition is_ascii_space (c : ascii) : bool :=
  let n := nat_of_ascii c in
  (((9 <=? n) && (n <=? 13)) || ((28 <=? n) && (n <=? 32)))%nat.

(** Whether the string is made of ASCII whitespace only. *)
Fixpoint blank (s : string) : bool :=
  match s with
  | EmptyString => true
  | String c s' => is_ascii_space c && blank s'
  end.

(** A word with something before and after it. *)
Definition padded (before after word : string) : string :=
  before ++ word ++ after.

(** The position the graph gives to a node that recorded no error. *)
Definition planned_successor (n : Node) : Position :=
  match n with
  | N_analyze_document => Run N_generate_plan
  | N_generate_plan => Run N_present_for_review
  | N_present_for_review => Interrupted
  | N_revise_plan => Run N_present_for_review
  | N_finalize_plan => Ended
  | N_handle_rejection => Ended
  end.

(** The ids of the slides that the requests create, in order. *)
Definition created_slide_ids (rs : list Request) : list string :=
  flat_map (fun r => match r with
                     | createSlide objectId _ _ => [objectId]
                     | _ => []
                     end) rs.

Definition is_deleteObject (r : Request) : bool :=
  match r with
  | deleteObject _ => true
  | _ => false
  end.

(** A world in which the language model cannot be reached. *)
Definition offline_world : World :=
  {| analysis_chain := Raised "";
     plan_chain := Raised "";
     GOOGLE_CREDENTIALS_PATH := None;
     GOOGLE_SERVICE_ACCOUNT_PATH := None;
     create_presentation_url := Raised "" |}.

(** A plan that differs from the sample plan in what the summary does not
    show: description, audience, speaker notes, subtitle and message. *)
Definition sample_plan_variant : PresentationPlan :=
  {| title := title sample_plan;
     description := "For the board";
     target_audience := "Executives";
     estimated_duration_minutes := estimated_duration_minutes sample_plan;
     slides :=
       [ TitleSlide "Welcome everybody" "Cloud Migration" "2026" "" "";
         KeyPointsSlide "" "Why now" [];
         ClosingSlide "" "Thank You" "Questions?" ] |}.

(** The part of a slide line that stands before the title. *)
Definition slide_line_prefix (i : nat) (slide : Slide) : string :=
  Py.rjust 2 (Py.str_of_nat i) ++ ". ["
    ++ Py.ljust 15 (SlideType_value (slide_type slide)) ++ "] ".

(** A plan with the speaker notes of every slide replaced. *)
Definition plan_with_speaker_notes (notes : string) (plan : PresentationPlan)
    : PresentationPlan :=
  {| title := title plan;
     description := description plan;
     target_audience := target_audience plan;
     estimated_duration_minutes := estimated_duration_minutes plan;
     slides := map (with_speaker_notes notes) (slides plan) |}.

(** Whether the key point has a title that is not empty. *)
Definition has_point_title (point : list (string * string)) : bool :=
  Py.truthy (dict_get point "title" "").

(** An API that answers every call. *)
Definition sample_api : SlidesApi :=
  {| presentations_create := fun _ => Returned ("deck-1", "p");
     presentations_batchUpdate := fun _ _ => Returned tt |}.

(* ================================================================= *)
(** * Properties *)

(** ** The review decision *)

Lemma should_continue_review_cases (state : AgentState) :
  let feedback := Py.strip (Py.lower (user_feedback state)) in
  should_continue_review state =
    if (feedback =? "aprobar")%string then R_finalize
    else if (feedback =? "rechazar")%string then R_reject
    else if Z.leb (max_revisions state) (revision_count state)
         then R_max_revisions
    else R_revise.
Proof.
  unfold should_continue_review. cbv zeta.
  now rewrite Z.geb_leb.
Qed.

(** C1, as the code has it: the review decision is a strict priority list
    over the normalised feedback ([lower] then [strip]).  The keyword
    ["aprobar"] leads to [finalize_plan]; otherwise the keyword ["rechazar"]
    leads to [handle_rejection]; otherwise an exhausted budget
    ([revision_count >= max_revisions]) leads to [finalize_plan]; otherwise
    the next node is [revise_plan]. *)
Theorem review_decision_priority (state : AgentState) :
  let feedback := Py.strip (Py.lower (user_feedback state)) in
  (feedback = "aprobar" -> review_decision state = To N_finalize_plan) /\
  (feedback = "rechazar" -> review_decision state = To N_handle_rejection) /\
  (feedback <> "aprobar" -> feedback <> "rechazar" ->
   revision_count state >= max_revisions state ->
   review_decision state = To N_finalize_plan) /\
  (feedback <> "aprobar" -> feedback <> "rechazar" ->
   revision_count state < max_revisions state ->
   review_decision state = To N_revise_plan).
Proof.
  intro feedback. unfold review_decision.
  rewrite should_continue_review_cases. fold feedback.
  repeat split.
  - intros ->. reflexivity.
  - intros ->. reflexivity.
  - intros Ha Hr Hge.
    apply String.eqb_neq in Ha, Hr. rewrite Ha, Hr.
    destruct (Z.leb_spec (max_revisions state) (revision_count state));
      [reflexivity | lia].
  - intros Ha Hr Hlt.
    apply String.eqb_neq in Ha, Hr. rewrite Ha, Hr.
    destruct (Z.leb_spec (max_revisions state) (revision_count state));
      [lia | reflexivity].
Qed.

Lemma review_decision_priority_witness :
  review_decision (draft_state "  APROBAR " 5) = To N_finalize_plan /\
  review_decision (draft_state "Rechazar" 5) = To N_handle_rejection /\
  review_decision (draft_state "change slide 3" 5) = To N_finalize_plan /\
  review_decision (draft_state "change slide 3" 4) = To N_revise_plan.
Proof.
  split; [| split; [| split]].
  - exact (proj1 (review_decision_priority (draft_state "  APROBAR " 5))
             eq_refl).
  - exact (proj1 (proj2 (review_decision_priority (draft_state "Rechazar" 5)))
             eq_refl).
  - apply (proj1 (proj2 (proj2
             (review_decision_priority (draft_state "change slide 3" 5)))));
      [discriminate | discriminate | simpl; lia].
  - apply (proj2 (proj2 (proj2
             (review_decision_priority (draft_state "change slide 3" 4)))));
      [discriminate | discriminate | simpl; lia].
Defined.

(** C1, as stated, fails: the words ["approve"] and ["reject"] are not
    keywords of the router.  With budget left they are taken for revision
    requests. *)
Lemma approve_reject_are_not_keywords :
  Py.strip (Py.lower (user_feedback (draft_state "approve" 0))) = "approve" /\
  review_decision (draft_state "approve" 0) = To N_revise_plan /\
  Py.strip (Py.lower (user_feedback (draft_state "reject" 0))) = "reject" /\
  review_decision (draft_state "reject" 0) = To N_revise_plan.
Proof. repeat split. Qed.

(** C7: with the budget used up ([revision_count = max_revisions]) and a
    feedback that is neither keyword, the review decision is
    [finalize_plan]; the router names this route ["max_revisions"]. *)
Theorem exhausted_budget_finalizes (state : AgentState) :
  status state = DRAFT ->
  revision_count state = max_revisions state ->
  Py.strip (Py.lower (user_feedback state)) <> "aprobar" ->
  Py.strip (Py.lower (user_feedback state)) <> "rechazar" ->
  should_continue_review state = R_max_revisions /\
  review_decision state = To N_finalize_plan.
Proof.
  intros _ Hrc Ha Hr. unfold review_decision.
  rewrite should_continue_review_cases. cbv zeta.
  apply String.eqb_neq in Ha, Hr. rewrite Ha, Hr.
  destruct (Z.leb_spec (max_revisions state) (revision_count state));
    [split; reflexivity | lia].
Qed.

Lemma exhausted_budget_finalizes_witness :
  max_revisions (draft_state "change slide 3" 5) = 5 /\
  should_continue_review (draft_state "change slide 3" 5) = R_max_revisions /\
  review_decision (draft_state "change slide 3" 5) = To N_finalize_plan.
Proof.
  split; [reflexivity |].
  apply (exhausted_budget_finalizes (draft_state "change slide 3" 5));
    [reflexivity | reflexivity | discriminate | discriminate].
Defined.

(* ================================================================= *)
(** ** The revise step *)

(** C3: when the chain returns a revised plan, merging the update of
    [revise_plan] replaces the plan by the revised one, sets the status to
    [DRAFT], adds exactly one to [revision_count], empties the feedback and
    appends exactly one message, the revision summary; nothing else
    changes. *)
Theorem revise_plan_success (state : AgentState)
    (revised_plan : PresentationPlan) :
  let after := apply_update state (revise_plan (Returned revised_plan) state) in
  presentation_plan after = Some revised_plan /\
  status after = DRAFT /\
  revision_count after = revision_count state + 1 /\
  user_feedback after = "" /\
  messages after =
    (messages state
       ++ [AIMessage ("He revisado el plan de presentación basándome en tus comentarios."
                      ++ Py.nl ++ Py.nl ++ get_slide_summary revised_plan)])%list /\
  document after = document state /\
  document_analysis after = document_analysis state /\
  max_revisions after = max_revisions state /\
  error after = error state.
Proof. cbv zeta. repeat split. Qed.

(** C4: when the chain raises, merging the update of [revise_plan] sets
    [error] and appends exactly one message, the error report; feedback,
    plan, status and revision count are what they were. *)
Theorem revise_plan_failure (state : AgentState) (e : string) :
  let after := apply_update state (revise_plan (Raised e) state) in
  error after = Some ("Failed to revise plan: " ++ e) /\
  messages after =
    (messages state ++ [AIMessage ("Error revising plan: " ++ e)])%list /\
  user_feedback after = user_feedback state /\
  presentation_plan after = presentation_plan state /\
  status after = status state /\
  revision_count after = revision_count state /\
  max_revisions after = max_revisions state /\
  document after = document state /\
  document_analysis after = document_analysis state.
Proof. cbv zeta. repeat split. Qed.

(** A failed revision ends the run: the error just set is truthy. *)
Lemma revise_plan_failure_ends (json : list (string * string) -> string)
    (w : World) (state : AgentState) (e : string) :
  plan_chain w = Raised e ->
  fst (exec_node json N_revise_plan w state) = Ended.
Proof.
  intros H. unfold exec_node, run_node. rewrite H. reflexivity.
Qed.

(* ================================================================= *)
(** ** The error channel *)

Lemma apply_update_error (u : update) (s : AgentState) :
  writes_error u = false -> error (apply_update s u) = error s.
Proof.
  unfold apply_update. revert s.
  induction u as [| w u IH]; intros s H; [reflexivity |].
  simpl in H. apply orb_false_iff in H as [Hw Hu].
  simpl. rewrite (IH _ Hu). destruct w; try reflexivity; discriminate.
Qed.

(** A node that does not fail returns an update without the [error] key. *)
Lemma success_writes_no_error (json : list (string * string) -> string)
    (n : Node) (w : World) (state : AgentState) :
  node_fails n w state = false ->
  writes_error (run_node json n w state) = false.
Proof.
  destruct n; simpl; unfold analyze_document, generate_plan, revise_plan,
    present_for_review, finalize_plan, handle_rejection.
  - destruct (analysis_chain w); [reflexivity | discriminate].
  - destruct (plan_chain w); [reflexivity | discriminate].
  - destruct (presentation_plan state); reflexivity.
  - destruct (plan_chain w); [reflexivity | discriminate].
  - destruct (presentation_plan state); [reflexivity | discriminate].
  - reflexivity.
Qed.

(** C6, as the code has it: a step that runs and succeeds does not write
    the [error] channel, so the state after it carries the very [error]
    value it had before; an error that was set stays set, and
    [check_for_errors] keeps answering ["error"]. *)
Theorem success_keeps_error (json : list (string * string) -> string)
    (n : Node) (w : World) (state : AgentState) :
  node_fails n w state = false ->
  let after := snd (exec_node json n w state) in
  error after = error state /\
  check_for_errors after = check_for_errors state.
Proof.
  intros H. cbv zeta. unfold exec_node, check_for_errors. simpl snd.
  rewrite (apply_update_error _ _ (success_writes_no_error json n w state H)).
  split; reflexivity.
Qed.

Lemma success_keeps_error_witness :
  node_fails N_generate_plan sample_world stale_error_state = false /\
  error (snd (exec_node no_json N_generate_plan sample_world stale_error_state))
    = Some "Failed to analyze document: timeout" /\
  check_for_errors
    (snd (exec_node no_json N_generate_plan sample_world stale_error_state))
    = E_error.
Proof.
  split; [reflexivity |].
  apply (success_keeps_error no_json N_generate_plan sample_world
           stale_error_state).
  reflexivity.
Defined.

(** C6, as stated, fails: [generate_plan] succeeds on a state whose [error]
    is set, and the error is still there afterwards. *)
Lemma stale_error_survives_success :
  error stale_error_state <> None /\
  node_fails N_generate_plan sample_world stale_error_state = false /\
  status (snd (exec_node no_json N_generate_plan sample_world stale_error_state))
    = DRAFT /\
  error (snd (exec_node no_json N_generate_plan sample_world stale_error_state))
    <> None.
Proof. repeat split; discriminate. Qed.

(* ================================================================= *)
(** ** The finalize step *)

(** C8: on a state with a plan, [finalize_plan] sets the status to
    [APPROVED] and does not write [error], whatever the rendering does; it
    appends one message, the approval with the plan summary, and a rendering
    that raises, or a missing credential, only adds an advisory text at the
    end of that message. *)
Theorem finalize_plan_rendering_is_advisory (w : World) (state : AgentState)
    (plan : PresentationPlan) :
  presentation_plan state = Some plan ->
  let after := apply_update state (finalize_plan w state) in
  status after = APPROVED /\
  error after = error state /\
  presentation_plan after = Some plan /\
  writes_error (finalize_plan w state) = false /\
  exists advisory : string,
    messages after =
      (messages state
         ++ [AIMessage ("✅ Plan approved and finalized!" ++ Py.nl ++ Py.nl
                        ++ get_slide_summary plan ++ advisory)])%list /\
    (forall e : string,
       credential_configured w = true ->
       create_presentation_url w = Raised e ->
       advisory = Py.nl ++ Py.nl ++ "⚠️ Could not create Google Slides: " ++ e) /\
    (credential_configured w = false ->
     advisory =
       Py.nl ++ Py.nl
         ++ "💡 Configure GOOGLE_CREDENTIALS_PATH to auto-generate Google Slides.").
Proof.
  intros Hplan. cbv zeta. unfold finalize_plan, credential_configured.
  rewrite Hplan.
  destruct (Py.truthy_opt
              (Py.or_else (GOOGLE_CREDENTIALS_PATH w)
                 (GOOGLE_SERVICE_ACCOUNT_PATH w))) eqn:Hcred.
  - destruct (create_presentation_url w) as [url | e0] eqn:Hurl;
      simpl; rewrite Hplan; repeat split;
      eexists; (split; [reflexivity |]); split;
      intros; congruence.
  - simpl; rewrite Hplan; repeat split.
    eexists; (split; [reflexivity |]); split; intros; congruence.
Qed.

Lemma finalize_plan_rendering_is_advisory_witness :
  status (apply_update (draft_state "aprobar" 0)
            (finalize_plan failing_render_world (draft_state "aprobar" 0)))
    = APPROVED /\
  error (apply_update (draft_state "aprobar" 0)
           (finalize_plan failing_render_world (draft_state "aprobar" 0)))
    = None.
Proof.
  destruct (finalize_plan_rendering_is_advisory failing_render_world
              (draft_state "aprobar" 0) sample_plan eq_refl)
    as (Hstatus & Herror & _).
  split; [exact Hstatus | exact Herror].
Defined.

(* ================================================================= *)
(** ** The slide summary *)

Lemma append_assoc (a b c : string) : (a ++ b) ++ c = a ++ b ++ c.
Proof. induction a as [| x a IH]; simpl; [reflexivity | now rewrite IH]. Qed.

Lemma has_nl_app (a b : string) : has_nl (a ++ b) = has_nl a || has_nl b.
Proof.
  induction a as [| c a IH]; simpl; [reflexivity |].
  now rewrite IH, orb_assoc.
Qed.

Lemma has_nl_repeat_space (n : nat) : has_nl (Py.repeat " " n) = false.
Proof. induction n as [| n IH]; simpl; [reflexivity | exact IH]. Qed.

Lemma has_nl_digits (d : uint) : has_nl (NilEmpty.string_of_uint d) = false.
Proof. induction d; simpl; auto. Qed.

Lemma has_nl_str_of_int (z : Z) : has_nl (Py.str_of_int z) = false.
Proof.
  unfold Py.str_of_int, NilZero.string_of_int, NilZero.string_of_uint.
  destruct (Z.to_int z) as [d | d]; destruct d; simpl;
    auto using has_nl_digits.
Qed.

Lemma split_lines_one (a : string) : has_nl a = false -> split_lines a = [a].
Proof.
  induction a as [| c a IH]; simpl; [reflexivity |].
  intros H. apply orb_false_iff in H as [Hc Ha].
  rewrite Hc, (IH Ha). reflexivity.
Qed.

Lemma split_lines_app (a b : string) :
  has_nl a = false -> split_lines (a ++ Py.nl ++ b) = a :: split_lines b.
Proof.
  induction a as [| c a IH]; simpl; [reflexivity |].
  intros H. apply orb_false_iff in H as [Hc Ha].
  rewrite Hc. simpl in IH. rewrite (IH Ha). reflexivity.
Qed.

(** Cutting a joined text at its line breaks gives the lines back, when no
    line has a break of its own. *)
Lemma split_lines_join (l : string) (ls : list string) :
  Forall (fun x => has_nl x = false) (l :: ls) ->
  split_lines (Py.join Py.nl (l :: ls)) = l :: ls.
Proof.
  revert l. induction ls as [| l' ls IH]; intros l H.
  - inversion H; subst. now apply split_lines_one.
  - inversion H as [| ? ? Hl Hrest]; subst.
    change (Py.join Py.nl (l :: l' :: ls))
      with (l ++ Py.nl ++ Py.join Py.nl (l' :: ls)).
    rewrite (split_lines_app _ _ Hl), (IH _ Hrest). reflexivity.
Qed.

Lemma span_digits_uint (d : uint) (rest : string) :
  fst (span_digits rest) = "" ->
  span_digits (NilEmpty.string_of_uint d ++ rest)
    = (NilEmpty.string_of_uint d, rest).
Proof.
  intros Hrest.
  induction d; simpl; rewrite ?IHd; try reflexivity.
  destruct rest as [| c r]; [reflexivity |].
  simpl in *. destruct (is_digit c); [| reflexivity].
  destruct (span_digits r); discriminate.
Qed.

Lemma drop_spaces_repeat (n : nat) (s : string) :
  drop_spaces (Py.repeat " " n ++ s) = drop_spaces s.
Proof. induction n as [| n IH]; simpl; [reflexivity | exact IH]. Qed.

Lemma drop_spaces_digits (d : uint) (rest : string) :
  drop_spaces (NilEmpty.string_of_uint d ++ "." ++ rest)
    = NilEmpty.string_of_uint d ++ "." ++ rest.
Proof. destruct d; reflexivity. Qed.

Lemma to_uint_nonnil (n : nat) : Nat.to_uint n <> Nil.
Proof.
  rewrite <- (DecimalNat.Unsigned.of_to n) at 1.
  rewrite DecimalNat.Unsigned.to_of. apply DecimalFacts.unorm_nonnil.
Qed.

Lemma parse_nat_str_of_nat (n : nat) : parse_nat (Py.str_of_nat n) = Some n.
Proof.
  unfold parse_nat, Py.str_of_nat.
  destruct (NilEmpty.string_of_uint (Nat.to_uint n)) eqn:E.
  - destruct (Nat.to_uint n) eqn:En; try discriminate.
    now destruct (to_uint_nonnil n).
  - rewrite <- E, NilEmpty.usu. simpl.
    now rewrite DecimalNat.Unsigned.of_to.
Qed.

Lemma parse_tag_ljust (t : SlideType) (rest : string) :
  parse_tag_among all_slide_types
    ("[" ++ Py.ljust 15 (SlideType_value t) ++ "] " ++ rest) = Some (t, rest).
Proof. destruct t; reflexivity. Qed.

Lemma has_nl_tag (t : SlideType) :
  has_nl (Py.ljust 15 (SlideType_value t)) = false.
Proof. destruct t; reflexivity. Qed.

(** A slide line reads back as the index, type and title it was made of. *)
Lemma parse_slide_line_of_slide (i : nat) (slide : Slide) :
  parse_slide_line (slide_line i slide)
    = Some (i, slide_type slide, slide_title slide).
Proof.
  unfold parse_slide_line, slide_line, Py.rjust.
  rewrite append_assoc, drop_spaces_repeat.
  unfold Py.str_of_nat.
  change (". [" ++ Py.ljust 15 (SlideType_value (slide_type slide)) ++ "] "
            ++ slide_title slide)
    with ("." ++ " [" ++ Py.ljust 15 (SlideType_value (slide_type slide))
            ++ "] " ++ slide_title slide).
  rewrite drop_spaces_digits.
  rewrite span_digits_uint by reflexivity.
  fold (Py.str_of_nat i). rewrite parse_nat_str_of_nat.
  change (Py.drop_prefix ". "
            ("." ++ " [" ++ Py.ljust 15 (SlideType_value (slide_type slide))
               ++ "] " ++ slide_title slide))
    with (Some ("[" ++ Py.ljust 15 (SlideType_value (slide_type slide))
                  ++ "] " ++ slide_title slide)).
  cbv beta iota. rewrite parse_tag_ljust. reflexivity.
Qed.

Lemma has_nl_slide_line (i : nat) (slide : Slide) :
  has_nl (slide_title slide) = false -> has_nl (slide_line i slide) = false.
Proof.
  intros H. unfold slide_line, Py.rjust, Py.str_of_nat.
  rewrite !has_nl_app, has_nl_repeat_space, has_nl_digits, has_nl_tag, H.
  reflexivity.
Qed.

Lemma parse_slide_lines_enumerate (l : list Slide) (start : nat) :
  parse_slide_lines
    (map (fun '(i, slide) => slide_line i slide) (enumerate start l))
  = Some (map (fun '(i, slide) => (i, slide_type slide, slide_title slide))
              (enumerate start l)).
Proof.
  revert start. induction l as [| slide l IH]; intros start; simpl;
    [reflexivity |].
  now rewrite parse_slide_line_of_slide, IH.
Qed.

Lemma has_nl_slide_lines (l : list Slide) (start : nat) :
  Forall (fun slide => has_nl (slide_title slide) = false) l ->
  Forall (fun x => has_nl x = false)
    (map (fun '(i, slide) => slide_line i slide) (enumerate start l)).
Proof.
  intros H. revert start.
  induction H as [| slide l Hs _ IH]; intros start; simpl; constructor;
    auto using has_nl_slide_line.
Qed.

Lemma enumerate_length {A : Type} (l : list A) (start : nat) :
  List.length (enumerate start l) = List.length l.
Proof.
  revert start. induction l as [| x l IH]; intros start; simpl;
    [reflexivity | now rewrite IH].
Qed.

Lemma enumerate_nth {A : Type} (l : list A) (start k : nat) (x : A) :
  nth_error l k = Some x ->
  nth_error (enumerate start l) k = Some ((start + k)%nat, x).
Proof.
  revert start k. induction l as [| y l IH]; intros start k H.
  - destruct k; discriminate.
  - destruct k as [| k]; simpl in *.
    + injection H as ->. now rewrite Nat.add_0_r.
    + rewrite (IH (S start) k H). do 2 f_equal. lia.
Qed.

Lemma slide_entries_nth (self : PresentationPlan) (k : nat) (slide : Slide) :
  nth_error (slides self) k = Some slide ->
  nth_error (slide_entries self) k
    = Some (S k, slide_type slide, slide_title slide).
Proof.
  intros H. unfold slide_entries.
  rewrite nth_error_map, (enumerate_nth _ 1 k slide H). reflexivity.
Qed.

Lemma enumerate_types (l : list Slide) (start : nat) :
  map (fun e : SummaryEntry => snd (fst e))
      (map (fun '(i, slide) => (i, slide_type slide, slide_title slide))
           (enumerate start l))
  = map slide_type l.
Proof.
  revert start. induction l as [| slide l IH]; intros start;
    [reflexivity |].
  simpl. f_equal. apply IH.
Qed.

Lemma slide_entries_types (self : PresentationPlan) :
  map (fun e : SummaryEntry => snd (fst e)) (slide_entries self)
    = map slide_type (slides self).
Proof. apply enumerate_types. Qed.

Lemma parse_slide_count_line (n : nat) :
  parse_slide_count ("Slides: " ++ Py.str_of_nat n) = Some n.
Proof.
  unfold parse_slide_count.
  change (Py.drop_prefix "Slides: " ("Slides: " ++ Py.str_of_nat n))
    with (Some (Py.str_of_nat n)).
  apply parse_nat_str_of_nat.
Qed.

Lemma split_lines_nonempty (a : string) : split_lines a <> [].
Proof.
  destruct a as [| c a]; simpl; [discriminate |].
  destruct (Ascii.eqb c (ascii_of_nat 10)); [discriminate |].
  destruct (split_lines a); discriminate.
Qed.

(** Cutting at line breaks goes through a line break, whatever stands on
    either side of it. *)
Lemma split_lines_break (a b : string) :
  split_lines (a ++ Py.nl ++ b) = (split_lines a ++ split_lines b)%list.
Proof.
  induction a as [| c a IH]; [reflexivity |].
  simpl. simpl in IH. rewrite IH.
  destruct (Ascii.eqb c (ascii_of_nat 10)); [reflexivity |].
  destruct (split_lines a) as [| l ls] eqn:E; [| reflexivity].
  now destruct (split_lines_nonempty a).
Qed.

Lemma split_at_last_none (sep : string) (ls : list string) :
  Forall (fun l => l <> sep) ls -> split_at_last sep ls = None.
Proof.
  induction 1 as [| l ls Hl _ IH]; simpl; [reflexivity |].
  rewrite IH. apply String.eqb_neq in Hl. now rewrite Hl.
Qed.

Lemma split_at_last_found (sep : string) (before after : list string) :
  Forall (fun l => l <> sep) after ->
  split_at_last sep (before ++ sep :: after) = Some (before, after).
Proof.
  intros H. induction before as [| l before IH]; simpl.
  - now rewrite (split_at_last_none sep after H), String.eqb_refl.
  - now rewrite IH.
Qed.

(** No slide line is the rule that ends the header. *)
Lemma slide_line_not_rule (i : nat) (slide : Slide) :
  slide_line i slide <> Py.repeat "-" 40.
Proof.
  intros E. pose proof (parse_slide_line_of_slide i slide) as H.
  rewrite E in H. discriminate.
Qed.

Lemma slide_lines_not_rule (l : list Slide) (start : nat) :
  Forall (fun x => x <> Py.repeat "-" 40)
    (map (fun '(i, slide) => slide_line i slide) (enumerate start l)).
Proof.
  revert start. induction l as [| slide l IH]; intros start; simpl;
    constructor; auto using slide_line_not_rule.
Qed.

(** The summary cut into lines: the lines of the title line, the rest of
    the header, the rule, and one line per slide. *)
Lemma split_lines_summary (self : PresentationPlan) :
  Forall (fun slide => has_nl (slide_title slide) = false) (slides self) ->
  split_lines (get_slide_summary self)
  = ((split_lines ("Presentation: " ++ title self)%string
        ++ [ ("Slides: " ++ Py.str_of_nat (get_slide_count self))%string;
             ("Duration: ~"
                ++ Py.str_of_int (estimated_duration_minutes self)
                ++ " minutes")%string;
             "";
             "Slide Structure:" ])
       ++ Py.repeat "-" 40
       :: map (fun '(i, slide) => slide_line i slide)
            (enumerate 1 (slides self)))%list.
Proof.
  intros Hs. unfold get_slide_summary.
  change (Py.join Py.nl (summary_lines self))
    with (("Presentation: " ++ title self) ++ Py.nl
            ++ Py.join Py.nl
                 (("Slides: " ++ Py.str_of_nat (get_slide_count self))
                    :: ("Duration: ~"
                          ++ Py.str_of_int (estimated_duration_minutes self)
                          ++ " minutes")
                    :: "" :: "Slide Structure:" :: Py.repeat "-" 40
                    :: map (fun '(i, slide) => slide_line i slide)
                         (enumerate 1 (slides self)))).
  rewrite split_lines_break, split_lines_join.
  - now rewrite <- app_assoc.
  - constructor;
      [unfold Py.str_of_nat; now rewrite has_nl_app, has_nl_digits |].
    constructor; [now rewrite !has_nl_app, has_nl_str_of_int |].
    repeat (constructor; [reflexivity |]).
    now apply has_nl_slide_lines.
Qed.

(** C9, for plans whose slide titles have no line break: reading the
    summary back gives the slide count [len(slides)] and one entry per
    slide, in presentation order, the k-th entry (from 0) carrying the index
    k + 1, the type and the title of the k-th slide. *)
Theorem summary_round_trip (self : PresentationPlan) :
  Forall (fun slide => has_nl (slide_title slide) = false) (slides self) ->
  parse_slide_summary (get_slide_summary self)
    = Some (get_slide_count self, slide_entries self) /\
  List.length (slide_entries self) = get_slide_count self /\
  map (fun e : SummaryEntry => snd (fst e)) (slide_entries self)
    = map slide_type (slides self) /\
  (forall (k : nat) (slide : Slide),
     nth_error (slides self) k = Some slide ->
     nth_error (slide_entries self) k
       = Some (S k, slide_type slide, slide_title slide)).
Proof.
  intros Hs. split; [| split; [| split]].
  - unfold parse_slide_summary.
    rewrite (split_lines_summary self Hs).
    rewrite split_at_last_found by apply slide_lines_not_rule.
    rewrite rev_app_distr. cbn [List.rev List.app].
    rewrite parse_slide_count_line, parse_slide_lines_enumerate.
    reflexivity.
  - unfold slide_entries, get_slide_count.
    rewrite length_map. apply enumerate_length.
  - apply slide_entries_types.
  - apply slide_entries_nth.
Qed.

Lemma summary_round_trip_witness :
  parse_slide_summary (get_slide_summary sample_plan)
    = Some (3%nat,
            [ (1%nat, TITLE, "Cloud Migration");
              (2%nat, KEY_POINTS, "Why now");
              (3%nat, CLOSING, "Thank You") ]).
Proof.
  apply (summary_round_trip sample_plan).
  repeat constructor.
Defined.

(** C9, as stated, fails: a plan with one slide and a plan with none have
    the same summary, so no reader of summaries gives back the slide count
    of every plan; and two plans of two slides with plain plan titles have
    the same summary while their slide types differ. *)
Lemma summary_does_not_determine_slides :
  get_slide_summary one_slide_plan = get_slide_summary no_slide_plan /\
  get_slide_count one_slide_plan = 1%nat /\
  get_slide_count no_slide_plan = 0%nat /\
  ~ (exists reader : string -> nat,
       forall self : PresentationPlan,
         reader (get_slide_summary self) = get_slide_count self) /\
  get_slide_summary title_then_closing = get_slide_summary title_then_title /\
  map slide_type (slides title_then_closing) = [TITLE; CLOSING] /\
  map slide_type (slides title_then_title) = [TITLE; TITLE].
Proof.
  assert (E : get_slide_summary one_slide_plan
              = get_slide_summary no_slide_plan) by (vm_compute; reflexivity).
  split; [exact E |].
  split; [reflexivity |].
  split; [reflexivity |].
  split; [| split; [vm_compute; reflexivity | split; reflexivity]].
  intros [reader H].
  pose proof (H one_slide_plan) as H1. pose proof (H no_slide_plan) as H0.
  rewrite E in H1. rewrite H0 in H1. discriminate.
Qed.

(* ================================================================= *)
(** ** The two drivers and blank feedback *)

(** The review loop of [run_agent] asks again on a blank line. *)
Lemma run_agent_blank_reprompts (line : string) (state : AgentState) :
  status state = DRAFT ->
  Py.strip line = "" ->
  run_agent_turn line state = Reprompt.
Proof.
  intros Hst Hblank. unfold run_agent_turn. now rewrite Hst, Hblank.
Qed.

(** When it does resume, the feedback it hands over is not empty. *)
Lemma run_agent_resumes_with_feedback (line : string) (state : AgentState)
    (c : Config) :
  run_agent_turn line state = Resumed c ->
  user_feedback (snd c) = Py.strip line /\ user_feedback (snd c) <> "".
Proof.
  unfold run_agent_turn.
  destruct (status state); try discriminate.
  destruct (Py.strip line) as [| a r] eqn:E; simpl; [discriminate |].
  intros [= <-]. split; [reflexivity | discriminate].
Qed.

(** The router has no such guard: with budget left, a feedback that
    normalises to the empty string is answered with ["revise"]. *)
Lemma blank_feedback_routes_to_revise (state : AgentState) :
  Py.strip (Py.lower (user_feedback state)) = "" ->
  revision_count state < max_revisions state ->
  should_continue_review state = R_revise /\
  review_decision state = To N_revise_plan.
Proof.
  intros Hblank Hlt. unfold review_decision.
  rewrite should_continue_review_cases. cbv zeta.
  rewrite Hblank. simpl.
  destruct (Z.leb_spec (max_revisions state) (revision_count state));
    [lia | split; reflexivity].
Qed.

(** C5 on the code: [should_continue_review] has no test for an empty or
    blank feedback.  On a draft with budget left it answers ["revise"],
    which the conditional edges map to [revise_plan]; this is so for the
    empty feedback that a new session carries to its first review, and for
    a feedback of blanks.  The review loop of [run_agent] asks again on such
    a line instead. *)
Theorem blank_feedback_is_routed_to_revise :
  user_feedback (snd after_review) = "" /\
  should_continue_review (snd after_review) = R_revise /\
  review_decision (draft_state "" 0) = To N_revise_plan /\
  should_continue_review (draft_state "   " 0) = R_revise /\
  review_decision (draft_state "   " 0) = To N_revise_plan /\
  run_agent_turn "" (draft_state "earlier" 0) = Reprompt /\
  run_agent_turn "   " (draft_state "earlier" 0) = Reprompt.
Proof. repeat split; vm_compute; reflexivity. Qed.

(* ================================================================= *)
(** ** Invariants of the runner *)

Lemma apply_update_max_revisions (u : update) (s : AgentState) :
  max_revisions (apply_update s u) = max_revisions s.
Proof.
  unfold apply_update. revert s.
  induction u as [| w u IH]; intros s; [reflexivity |].
  simpl. rewrite IH. now destruct w.
Qed.

Lemma exec_node_max_revisions (json : list (string * string) -> string)
    (n : Node) (w : World) (s : AgentState) :
  max_revisions (snd (exec_node json n w s)) = max_revisions s.
Proof. unfold exec_node. simpl snd. apply apply_update_max_revisions. Qed.

Lemma successor_not_revise (n : Node) (after : AgentState) :
  successor n after <> Run N_revise_plan.
Proof.
  destruct n; simpl; try discriminate;
    destruct (check_for_errors after); discriminate.
Qed.

(** Every node but [revise_plan] leaves the counter alone; [revise_plan]
    adds one when the chain returns and nothing when it raises. *)
Lemma exec_node_revision_count (json : list (string * string) -> string)
    (n : Node) (w : World) (s : AgentState) :
  revision_count (snd (exec_node json n w s)) = revision_count s \/
  (n = N_revise_plan /\
   revision_count (snd (exec_node json n w s)) = revision_count s + 1).
Proof.
  unfold exec_node. simpl snd.
  destruct n; simpl run_node.
  - left. unfold analyze_document. now destruct (analysis_chain w).
  - left. unfold generate_plan. now destruct (plan_chain w).
  - left. unfold present_for_review. now destruct (presentation_plan s).
  - unfold revise_plan. destruct (plan_chain w); [right | left]; auto.
  - left. unfold finalize_plan. now destruct (presentation_plan s).
  - left. reflexivity.
Qed.

Lemma review_decision_revise (s : AgentState) :
  position_of (review_decision s) = Run N_revise_plan ->
  revision_count s < max_revisions s.
Proof.
  unfold review_decision. rewrite should_continue_review_cases. cbv zeta.
  destruct (_ =? "aprobar")%string; [discriminate |].
  destruct (_ =? "rechazar")%string; [discriminate |].
  destruct (Z.leb_spec (max_revisions s) (revision_count s));
    [discriminate | trivial].
Qed.

Lemma budget_invariant_step (json : list (string * string) -> string)
    (c c' : Config) :
  step json c c' -> budget_invariant c -> budget_invariant c'.
Proof.
  intros Hstep [Hle Hrun].
  destruct Hstep as [n w s | pos feedback s | pos feedback s];
    simpl in Hle, Hrun.
  - split.
    + rewrite exec_node_max_revisions.
      destruct (exec_node_revision_count json n w s) as [E | [-> E]];
        rewrite E; [exact Hle |].
      specialize (Hrun eq_refl). lia.
    + intros H. exfalso. revert H. apply successor_not_revise.
  - unfold resume. split; simpl.
    + exact Hle.
    + apply review_decision_revise.
  - unfold restart. split; simpl.
    + exact Hle.
    + discriminate.
Qed.

Lemma budget_invariant_reachable (json : list (string * string) -> string)
    (c0 c : Config) :
  budget_invariant c0 -> reachable json c0 c -> budget_invariant c.
Proof.
  intros H0 Hreach.
  induction Hreach as [| c c' _ IH Hstep]; [exact H0 |].
  exact (budget_invariant_step json c c' Hstep IH).
Qed.

(** A session may start with any ceiling that is not negative. *)
Lemma budget_invariant_start (s : AgentState) :
  revision_count s = 0 -> 0 <= max_revisions s ->
  budget_invariant (Run entry_point, s).
Proof.
  intros Hrc Hmax. split; simpl; [lia | discriminate].
Qed.

Lemma reach_node (json : list (string * string) -> string) (c0 c : Config)
    (n : Node) (w : World) :
  reachable json c0 c -> fst c = Run n ->
  reachable json c0 (exec_node json n w (snd c)).
Proof.
  intros Hreach Hpos. apply (reach_step json c0 c); [exact Hreach |].
  destruct c as [pos s]. simpl in *. subst pos. constructor.
Qed.

Lemma reach_resume (json : list (string * string) -> string) (c0 c : Config)
    (feedback : string) :
  reachable json c0 c -> fst c = Interrupted ->
  reachable json c0 (resume feedback (snd c)).
Proof.
  intros Hreach Hpos. apply (reach_step json c0 c); [exact Hreach |].
  destruct c as [pos s]. simpl in *. subst pos. apply step_resume.
Qed.

Lemma sample_run_reachable :
  reachable no_json (initial_config "proposal") after_revision.
Proof.
  unfold after_revision. apply reach_node; [| reflexivity].
  unfold after_feedback. apply reach_resume; [| reflexivity].
  unfold after_review. apply reach_node; [| reflexivity].
  unfold after_generation. apply reach_node; [| reflexivity].
  unfold after_analysis.
  apply (reach_node no_json (initial_config "proposal")
           (initial_config "proposal"));
    [apply reach_start | reflexivity].
Defined.

(** C2: in every configuration that a session started with
    [AgentState(document=...)] can reach, [revision_count] is at most
    [max_revisions], and [revise_plan] is about to run only while
    [revision_count] is below [max_revisions]. *)
Theorem revision_count_within_budget (json : list (string * string) -> string)
    (doc : string) (c : Config) :
  reachable json (initial_config doc) c ->
  revision_count (snd c) <= max_revisions (snd c) /\
  (fst c = Run N_revise_plan ->
   revision_count (snd c) < max_revisions (snd c)).
Proof.
  intros Hreach.
  apply (budget_invariant_reachable json (initial_config doc) c);
    [| exact Hreach].
  apply budget_invariant_start; simpl; lia.
Qed.

Lemma revision_count_within_budget_witness :
  revision_count (snd after_revision) = 1 /\
  revision_count (snd after_revision) <= max_revisions (snd after_revision).
Proof.
  split; [reflexivity |].
  apply (revision_count_within_budget no_json "proposal" after_revision
           sample_run_reachable).
Defined.

(** No node returns a write of [REVISION_REQUESTED] to the status. *)
Lemma nodes_write_no_revision_requested
    (json : list (string * string) -> string) (n : Node) (w : World)
    (s : AgentState) (v : PlanStatus) :
  In (W_status v) (run_node json n w s) -> written_status v.
Proof.
  unfold written_status.
  destruct n; simpl run_node;
    unfold analyze_document, generate_plan, revise_plan, present_for_review,
      finalize_plan, handle_rejection.
  - destruct (analysis_chain w); simpl; intuition congruence.
  - destruct (plan_chain w); simpl; intuition congruence.
  - destruct (presentation_plan s); simpl; intuition congruence.
  - destruct (plan_chain w); simpl; intuition congruence.
  - destruct (presentation_plan s); simpl; intuition congruence.
  - simpl; intuition congruence.
Qed.

(** Merging an update leaves the status as it was or sets it to a status
    the update writes. *)
Lemma apply_update_status (u : update) (s : AgentState) :
  status (apply_update s u) = status s \/
  In (W_status (status (apply_update s u))) u.
Proof.
  unfold apply_update. revert s.
  induction u as [| w u IH]; intros s; [now left |].
  simpl. destruct (IH (apply_write s w)) as [E | Hin].
  - rewrite E. destruct w; simpl; auto.
  - right. right. exact Hin.
Qed.

Lemma written_status_step (json : list (string * string) -> string)
    (c c' : Config) :
  step json c c' ->
  written_status (status (snd c)) -> written_status (status (snd c')).
Proof.
  intros Hstep H.
  destruct Hstep as [n w s | pos feedback s | pos feedback s]; simpl in *;
    [| exact H | exact H].
  destruct (apply_update_status (run_node json n w s) s) as [E | Hin].
  - now rewrite E.
  - exact (nodes_write_no_revision_requested json n w s _ Hin).
Qed.

(** C10: the nodes write only [PENDING], [DRAFT], [APPROVED] and
    [REJECTED] to the status, and in every configuration that a session
    started in [PENDING] with [AgentState(document=...)] can reach, the
    status is one of these four: [REVISION_REQUESTED] is never reached. *)
Theorem revision_requested_unreachable
    (json : list (string * string) -> string) (doc : string) (c : Config) :
  reachable json (initial_config doc) c ->
  (status (snd c) = PENDING \/ status (snd c) = DRAFT \/
   status (snd c) = APPROVED \/ status (snd c) = REJECTED) /\
  status (snd c) <> REVISION_REQUESTED.
Proof.
  intros Hreach.
  assert (H : written_status (status (snd c))).
  { induction Hreach as [| c c' _ IH Hstep].
    - left. reflexivity.
    - exact (written_status_step json c c' Hstep IH). }
  split; [exact H |].
  destruct H as [E | [E | [E | E]]]; rewrite E; discriminate.
Qed.

Lemma revision_requested_unreachable_witness :
  status (snd after_revision) = DRAFT /\
  status (snd after_revision) <> REVISION_REQUESTED.
Proof.
  split; [reflexivity |].
  apply (revision_requested_unreachable no_json "proposal" after_revision
           sample_run_reachable).
Defined.

(* ================================================================= *)
(** ** Further properties of the nodes and of the graph *)

(** A node that fails is followed by [END]: the error it records begins
    with a fixed text, so it is truthy even when the exception has no
    text. *)
Theorem failing_node_ends_run (json : list (string * string) -> string)
    (n : Node) (w : World) (state : AgentState) :
  node_fails n w state = true ->
  fst (exec_node json n w state) = Ended /\
  error (snd (exec_node json n w state)) <> None /\
  error (snd (exec_node json n w state)) <> Some "".
Proof.
  unfold exec_node.
  destruct n; simpl node_fails; simpl run_node;
    unfold analyze_document, generate_plan, revise_plan, finalize_plan;
    intros H.
  - destruct (analysis_chain w); [discriminate |].
    repeat split; discriminate.
  - destruct (plan_chain w); [discriminate |].
    repeat split; discriminate.
  - discriminate.
  - destruct (plan_chain w); [discriminate |].
    repeat split; discriminate.
  - destruct (presentation_plan state); [discriminate |].
    repeat split; discriminate.
  - discriminate.
Qed.

Lemma failing_node_ends_run_witness :
  fst (exec_node no_json N_analyze_document offline_world
         (initial_state "proposal")) = Ended.
Proof.
  apply (failing_node_ends_run no_json N_analyze_document offline_world
           (initial_state "proposal")).
  reflexivity.
Defined.

(** A node that does not fail, run on a state without recorded error, is
    followed by the node the graph plans after it. *)
Theorem successful_node_continues (json : list (string * string) -> string)
    (n : Node) (w : World) (state : AgentState) :
  node_fails n w state = false ->
  error state = None ->
  fst (exec_node json n w state) = planned_successor n.
Proof.
  intros Hok Herr.
  pose proof (apply_update_error _ state
                (success_writes_no_error json n w state Hok)) as E.
  unfold exec_node. simpl fst.
  destruct n; cbn [successor planned_successor]; try reflexivity;
    unfold check_for_errors; rewrite E, Herr; reflexivity.
Qed.

Lemma successful_node_continues_witness :
  fst (exec_node no_json N_generate_plan sample_world (snd after_analysis))
    = Run N_present_for_review.
Proof.
  apply (successful_node_continues no_json N_generate_plan sample_world
           (snd after_analysis)); reflexivity.
Defined.

Lemma exec_node_messages (json : list (string * string) -> string)
    (n : Node) (w : World) (state : AgentState) :
  exists m : BaseMessage,
    messages (snd (exec_node json n w state)) = (messages state ++ [m])%list.
Proof.
  unfold exec_node. simpl snd.
  destruct n; simpl run_node;
    unfold analyze_document, generate_plan, revise_plan, present_for_review,
      finalize_plan, handle_rejection.
  - destruct (analysis_chain w); eexists; reflexivity.
  - destruct (plan_chain w); eexists; reflexivity.
  - destruct (presentation_plan state); eexists; reflexivity.
  - destruct (plan_chain w); eexists; reflexivity.
  - destruct (presentation_plan state); eexists; reflexivity.
  - eexists; reflexivity.
Qed.


Lemma step_messages (json : list (string * string) -> string)
    (c c' : Config) :
  step json c c' -> is_prefix (messages (snd c)) (messages (snd c')).
Proof.
  intros Hstep. destruct Hstep as [n w s | pos feedback s | pos feedback s].
  - destruct (exec_node_messages json n w s) as [m E].
    exists [m]. exact E.
  - exists []. simpl. now rewrite app_nil_r.
  - exists []. simpl. now rewrite app_nil_r.
Qed.

(** The message log only grows at its end: whatever a session does, the
    messages it had stay where they were, in order. *)
Theorem messages_append_only (json : list (string * string) -> string)
    (c c' : Config) :
  reachable json c c' ->
  is_prefix (messages (snd c)) (messages (snd c')) /\
  (List.length (messages (snd c)) <= List.length (messages (snd c')))%nat.
Proof.
  intros Hreach.
  assert (H : is_prefix (messages (snd c)) (messages (snd c'))).
  { induction Hreach as [| c1 c2 _ IH Hstep].
    - exists []. now rewrite app_nil_r.
    - destruct IH as [r1 E1].
      destruct (step_messages json c1 c2 Hstep) as [r2 E2].
      exists (r1 ++ r2)%list. now rewrite E2, E1, app_assoc. }
  split; [exact H |].
  destruct H as [rest E]. rewrite E, length_app. lia.
Qed.

Lemma messages_append_only_witness :
  is_prefix (messages (snd after_analysis)) (messages (snd after_revision)) /\
  List.length (messages (snd after_revision)) = 4%nat.
Proof.
  split; [| reflexivity].
  apply (messages_append_only no_json after_analysis after_revision).
  unfold after_revision. apply reach_node; [| reflexivity].
  unfold after_feedback. apply reach_resume; [| reflexivity].
  unfold after_review. apply reach_node; [| reflexivity].
  unfold after_generation.
  apply (reach_node no_json after_analysis after_analysis);
    [apply reach_start | reflexivity].
Defined.

Lemma apply_update_document (u : update) (s : AgentState) :
  document (apply_update s u) = document s.
Proof.
  unfold apply_update. revert s.
  induction u as [| w u IH]; intros s; [reflexivity |].
  simpl. rewrite IH. now destruct w.
Qed.

(** Along a session the document and the ceiling [max_revisions] stay what
    they were, and [revision_count] never goes down. *)
Theorem session_constants (json : list (string * string) -> string)
    (c c' : Config) :
  reachable json c c' ->
  document (snd c') = document (snd c) /\
  max_revisions (snd c') = max_revisions (snd c) /\
  revision_count (snd c) <= revision_count (snd c').
Proof.
  intros Hreach. induction Hreach as [| c1 c2 _ IH Hstep].
  - repeat split. lia.
  - destruct IH as (Hd & Hm & Hr).
    destruct Hstep as [n w s | pos feedback s | pos feedback s]; simpl in *.
    + rewrite apply_update_document, apply_update_max_revisions.
      repeat split; trivial.
      destruct (exec_node_revision_count json n w s) as [E | [_ E]];
        unfold exec_node in E; simpl in E; rewrite E; lia.
    + repeat split; trivial.
    + repeat split; trivial.
Qed.

Lemma session_constants_witness :
  max_revisions (snd after_revision) = 5 /\
  0 <= revision_count (snd after_revision).
Proof.
  destruct (session_constants no_json (initial_config "proposal")
              after_revision sample_run_reachable) as (_ & Hm & Hr).
  split; [exact Hm | exact Hr].
Defined.

(** Among the nodes only a revision whose chain returns touches the
    feedback or the revision counter: after every other node execution the
    feedback last supplied is still in the state. *)
Theorem feedback_outlives_other_nodes
    (json : list (string * string) -> string) (n : Node) (w : World)
    (state : AgentState) :
  n <> N_revise_plan \/ raised (plan_chain w) = true ->
  user_feedback (snd (exec_node json n w state)) = user_feedback state /\
  revision_count (snd (exec_node json n w state)) = revision_count state.
Proof.
  intros H. unfold exec_node. simpl snd.
  destruct n; simpl run_node;
    unfold analyze_document, generate_plan, revise_plan, present_for_review,
      finalize_plan, handle_rejection.
  - destruct (analysis_chain w); split; reflexivity.
  - destruct (plan_chain w); split; reflexivity.
  - destruct (presentation_plan state); split; reflexivity.
  - destruct (plan_chain w); [| split; reflexivity].
    destruct H as [H | H]; [now destruct H | discriminate].
  - destruct (presentation_plan state); split; reflexivity.
  - split; reflexivity.
Qed.

Lemma feedback_outlives_other_nodes_witness :
  user_feedback
    (snd (exec_node no_json N_finalize_plan sample_world
            (draft_state "aprobar" 2))) = "aprobar".
Proof.
  apply (feedback_outlives_other_nodes no_json N_finalize_plan sample_world
           (draft_state "aprobar" 2)).
  left. discriminate.
Defined.

(** Without a plan [finalize_plan] does not approve: whatever the world, it
    records the error ["No plan to finalize"], appends one message and
    leaves the status and every other field alone; no rendering is tried. *)
Theorem finalize_without_plan (w : World) (state : AgentState) :
  presentation_plan state = None ->
  let after := apply_update state (finalize_plan w state) in
  error after = Some "No plan to finalize" /\
  status after = status state /\
  presentation_plan after = None /\
  messages after
    = (messages state ++ [AIMessage "Error: No plan available to finalize."])%list /\
  finalize_plan w state = finalize_plan offline_world state.
Proof.
  intros H. cbv zeta. unfold finalize_plan. rewrite H. simpl.
  repeat split; assumption.
Qed.

Lemma finalize_without_plan_witness :
  status (apply_update (initial_state "proposal")
            (finalize_plan failing_render_world (initial_state "proposal")))
    = PENDING.
Proof.
  apply (finalize_without_plan failing_render_world (initial_state "proposal")).
  reflexivity.
Defined.

(* ================================================================= *)
(** ** One invocation of the graph *)

Lemma invoke_halted (json : list (string * string) -> string)
    (fuel : nat) (clients : nat -> option string) (worlds : nat -> World)
    (k : nat) (c : Config) :
  halted (fst c) = true -> invoke json fuel clients worlds k c = Returned c.
Proof.
  intros H. destruct fuel; [reflexivity |].
  simpl. destruct (fst c); [discriminate | reflexivity | reflexivity].
Qed.

(** The first invocation on a new session makes at most three node calls.
    It raises exactly when the model client of [analyze_document] or, after
    an analysis that returned, of [generate_plan] cannot be built.  When it
    returns, the runner has halted: suspended for review exactly when both
    clients were built and both chains returned, and then the status is
    [DRAFT], there is a plan, no error and three messages; otherwise at
    [END] with an error recorded, status [PENDING] and no plan. *)
Theorem fresh_invocation_outcome (json : list (string * string) -> string)
    (clients : nat -> option string) (worlds : nat -> World) (doc : string)
    (extra : nat) :
  match invoke json (3 + extra) clients worlds 0 (initial_config doc) with
  | Raised e =>
      clients 0%nat = Some e \/
      (clients 0%nat = None /\
       raised (analysis_chain (worlds 0%nat)) = false /\
       clients 1%nat = Some e)
  | Returned c =>
      halted (fst c) = true /\
      clients 0%nat = None /\
      (raised (analysis_chain (worlds 0%nat)) = false -> clients 1%nat = None) /\
      (fst c = Interrupted <->
       raised (analysis_chain (worlds 0%nat)) = false /\
       raised (plan_chain (worlds 1%nat)) = false) /\
      (fst c = Interrupted ->
       status (snd c) = DRAFT /\ presentation_plan (snd c) <> None /\
       error (snd c) = None /\ List.length (messages (snd c)) = 3%nat) /\
      (fst c <> Interrupted ->
       fst c = Ended /\ status (snd c) = PENDING /\
       presentation_plan (snd c) = None /\ error (snd c) <> None)
  end.
Proof.
  change (3 + extra)%nat with (S (S (S extra))).
  destruct (clients 0%nat) as [e0 |] eqn:C0;
    [simpl; rewrite C0; simpl; now left |].
  destruct (analysis_chain (worlds 0%nat)) as [analysis | x0] eqn:E0.
  - destruct (clients 1%nat) as [e1 |] eqn:C1.
    + simpl. rewrite C0. simpl. rewrite E0. simpl. rewrite C1. simpl.
      right. repeat split; reflexivity.
    + destruct (plan_chain (worlds 1%nat)) as [plan | x1] eqn:E1;
        repeat (progress
                  (simpl; rewrite ?C0, ?C1, ?E0, ?E1;
                   unfold call_node, check_for_errors, apply_update,
                     generate_plan, analyze_document, present_for_review;
                   rewrite ?invoke_halted by reflexivity));
        destruct (clients 2%nat);
        repeat (progress
                  (simpl;
                   unfold check_for_errors, apply_update, present_for_review;
                   rewrite ?invoke_halted by reflexivity));
        intuition (try discriminate; try congruence).
  - repeat (progress
              (simpl; rewrite ?C0, ?E0;
               unfold call_node, check_for_errors, apply_update,
                 analyze_document;
               rewrite ?invoke_halted by reflexivity));
      intuition (try discriminate; try congruence).
Qed.

(* ================================================================= *)
(** ** Normalisation of the feedback *)

Lemma length_append (a b : string) :
  String.length (a ++ b) = (String.length a + String.length b)%nat.
Proof. induction a as [| c a IH]; simpl; [reflexivity | now rewrite IH]. Qed.

Lemma append_empty_r (a : string) : a ++ "" = a.
Proof. induction a as [| c a IH]; simpl; [reflexivity | now rewrite IH]. Qed.

Lemma rev_onto_spec (s acc : string) : Py.rev_onto s acc = Py.rev s ++ acc.
Proof.
  unfold Py.rev. revert acc.
  induction s as [| c s IH]; intros acc; simpl; [reflexivity |].
  rewrite (IH (String c acc)), (IH (String c "")), append_assoc.
  reflexivity.
Qed.

Lemma rev_cons (c : ascii) (s : string) :
  Py.rev (String c s) = Py.rev s ++ String c "".
Proof. unfold Py.rev at 1. simpl. apply rev_onto_spec. Qed.

Lemma rev_append (a b : string) : Py.rev (a ++ b) = Py.rev b ++ Py.rev a.
Proof.
  induction a as [| c a IH]; simpl.
  - now rewrite append_empty_r.
  - now rewrite !rev_cons, IH, append_assoc.
Qed.

Lemma rev_involutive (s : string) : Py.rev (Py.rev s) = s.
Proof.
  induction s as [| c s IH]; [reflexivity |].
  now rewrite rev_cons, rev_append, IH.
Qed.

Lemma length_rev (s : string) : String.length (Py.rev s) = String.length s.
Proof.
  induction s as [| c s IH]; [reflexivity |].
  rewrite rev_cons, length_append, IH. simpl. lia.
Qed.

Lemma blank_append (a b : string) : blank (a ++ b) = blank a && blank b.
Proof.
  induction a as [| c a IH]; simpl; [reflexivity |].
  now rewrite IH, andb_assoc.
Qed.

Lemma blank_rev (s : string) : blank (Py.rev s) = blank s.
Proof.
  induction s as [| c s IH]; [reflexivity |].
  rewrite rev_cons, blank_append, IH. simpl.
  now rewrite andb_true_r, andb_comm.
Qed.

Lemma lower_append (a b : string) :
  Py.lower (a ++ b) = Py.lower a ++ Py.lower b.
Proof. induction a as [| c a IH]; simpl; [reflexivity | now rewrite IH]. Qed.

Lemma lower_char_space (c : ascii) :
  is_ascii_space c = true -> Py.lower_char c = c.
Proof.
  destruct c as [[|] [|] [|] [|] [|] [|] [|] [|]];
    intros H; try reflexivity; discriminate.
Qed.

Lemma lower_blank (s : string) : blank s = true -> Py.lower s = s.
Proof.
  induction s as [| c s IH]; simpl; [reflexivity |].
  intros H. apply andb_true_iff in H as [Hc Hs].
  now rewrite (lower_char_space c Hc), (IH Hs).
Qed.

Lemma drop_space (c : ascii) (x : string) :
  is_ascii_space c = true ->
  Py.drop_one_of Py.whitespace (String c x) = Some x /\
  Py.drop_one_of (map Py.rev Py.whitespace) (String c x) = Some x.
Proof.
  destruct c as [[|] [|] [|] [|] [|] [|] [|] [|]];
    intros H; try discriminate; split; reflexivity.
Qed.

Lemma lstrip_with_blank (ps : list string) (pad : string) :
  (forall (c : ascii) (x : string),
     is_ascii_space c = true -> Py.drop_one_of ps (String c x) = Some x) ->
  forall (fuel : nat) (r : string),
    blank pad = true ->
    (String.length pad <= fuel)%nat ->
    Py.drop_one_of ps r = None ->
    Py.lstrip_with ps fuel (pad ++ r) = r.
Proof.
  intros Hps. induction pad as [| c pad IH]; intros fuel r Hb Hlen Hr.
  - simpl. destruct fuel; simpl; [reflexivity | now rewrite Hr].
  - simpl in Hb, Hlen. apply andb_true_iff in Hb as [Hc Hb].
    destruct fuel as [| fuel]; [lia |].
    simpl. rewrite (Hps c _ Hc). apply IH; [exact Hb | lia | exact Hr].
Qed.

(** Stripping removes blank text around a word that neither begins nor
    ends with whitespace. *)
Lemma strip_padded (before after word : string) :
  blank before = true -> blank after = true ->
  (forall t : string, Py.drop_one_of Py.whitespace (word ++ t) = None) ->
  Py.drop_one_of (map Py.rev Py.whitespace) (Py.rev word) = None ->
  Py.strip (padded before after word) = word.
Proof.
  intros Hb Ha Hhead Htail. unfold Py.strip, padded.
  assert (E : Py.lstrip (before ++ word ++ after) = word ++ after).
  { unfold Py.lstrip. apply lstrip_with_blank.
    - intros c x Hc. exact (proj1 (drop_space c x Hc)).
    - exact Hb.
    - rewrite length_append. lia.
    - apply Hhead. }
  rewrite E. unfold Py.rstrip.
  rewrite rev_append.
  rewrite <- (append_empty_r (Py.rev word)) at 1.
  rewrite <- append_assoc.
  replace (Py.lstrip_with (map Py.rev Py.whitespace)
             (String.length (word ++ after))
             ((Py.rev after ++ Py.rev word) ++ ""))
    with (Py.rev word).
  - apply rev_involutive.
  - symmetry. rewrite append_assoc, append_empty_r.
    apply lstrip_with_blank.
    + intros c x Hc. exact (proj2 (drop_space c x Hc)).
    + now rewrite blank_rev.
    + rewrite length_rev, length_append. lia.
    + exact Htail.
Qed.

(** The router finds its keywords whatever the case of their letters and
    whatever ASCII whitespace surrounds them: such a feedback is routed to
    [finalize_plan] for ["aprobar"] and to [handle_rejection] for
    ["rechazar"], whatever the revision budget. *)
Theorem keywords_ignore_case_and_blanks (state : AgentState)
    (before after word : string) :
  blank before = true -> blank after = true ->
  (Py.lower word = "aprobar" ->
   review_decision
     (apply_update state [W_user_feedback (padded before after word)])
     = To N_finalize_plan) /\
  (Py.lower word = "rechazar" ->
   review_decision
     (apply_update state [W_user_feedback (padded before after word)])
     = To N_handle_rejection).
Proof.
  intros Hb Ha.
  assert (E : forall kw : string,
            Py.lower word = kw ->
            Py.lower (padded before after word) = padded before after kw).
  { intros kw Hw. unfold padded.
    now rewrite !lower_append, (lower_blank _ Hb), (lower_blank _ Ha), Hw. }
  unfold review_decision, should_continue_review.
  simpl user_feedback.
  split; intros Hw; rewrite (E _ Hw), strip_padded;
    try assumption;
    try (intros t; cbn; reflexivity);
    vm_compute; reflexivity.
Qed.

Lemma keywords_ignore_case_and_blanks_witness :
  review_decision
    (apply_update (draft_state "" 5)
       [W_user_feedback (padded "  " " " "ApRoBaR")])
    = To N_finalize_plan.
Proof.
  apply (keywords_ignore_case_and_blanks (draft_state "" 5) "  " " " "ApRoBaR");
    vm_compute; reflexivity.
Defined.

Lemma run_agent_resumes_with_feedback_witness :
  user_feedback (snd (resume "change slide 3" (draft_state "" 0)))
    = "change slide 3" /\
  user_feedback (snd (resume "change slide 3" (draft_state "" 0))) <> "".
Proof.
  apply (run_agent_resumes_with_feedback "  change slide 3  "
           (draft_state "" 0) (resume "change slide 3" (draft_state "" 0))).
  vm_compute. reflexivity.
Defined.

(* ================================================================= *)
(** ** Further properties of the slide summary *)

Lemma parse_slide_summary_clean (self : PresentationPlan) :
  Forall (fun slide => has_nl (slide_title slide) = false) (slides self) ->
  parse_slide_summary (get_slide_summary self)
    = Some (get_slide_count self, slide_entries self).
Proof.
  intros Hs. unfold parse_slide_summary.
  rewrite (split_lines_summary self Hs).
  rewrite split_at_last_found by apply slide_lines_not_rule.
  rewrite rev_app_distr. cbn [List.rev List.app].
  now rewrite parse_slide_count_line, parse_slide_lines_enumerate.
Qed.

Lemma enumerate_titles (l : list Slide) (start : nat) :
  map (fun e : SummaryEntry => snd e)
      (map (fun '(i, slide) => (i, slide_type slide, slide_title slide))
           (enumerate start l))
  = map slide_title l.
Proof.
  revert start. induction l as [| slide l IH]; intros start;
    [reflexivity |].
  simpl. f_equal. apply IH.
Qed.

(** Two plans whose slide titles have no line break and whose summaries are
    the same text have the same number of slides, with the same types and
    the same titles in the same order; they may differ in everything the
    summary does not show. *)
Theorem summary_determines_slides (p1 p2 : PresentationPlan) :
  Forall (fun slide => has_nl (slide_title slide) = false) (slides p1) ->
  Forall (fun slide => has_nl (slide_title slide) = false) (slides p2) ->
  get_slide_summary p1 = get_slide_summary p2 ->
  get_slide_count p1 = get_slide_count p2 /\
  map slide_type (slides p1) = map slide_type (slides p2) /\
  map slide_title (slides p1) = map slide_title (slides p2).
Proof.
  intros H1 H2 E.
  pose proof (parse_slide_summary_clean p1 H1) as P1.
  pose proof (parse_slide_summary_clean p2 H2) as P2.
  rewrite E, P2 in P1. injection P1 as Hc He.
  split; [now symmetry |]. split.
  - rewrite <- (slide_entries_types p1), <- (slide_entries_types p2).
    now rewrite He.
  - unfold slide_entries in He.
    rewrite <- (enumerate_titles (slides p1) 1),
            <- (enumerate_titles (slides p2) 1).
    now rewrite He.
Qed.

Lemma summary_determines_slides_witness :
  sample_plan <> sample_plan_variant /\
  map slide_title (slides sample_plan)
    = map slide_title (slides sample_plan_variant).
Proof.
  split; [discriminate |].
  apply (summary_determines_slides sample_plan sample_plan_variant).
  - repeat constructor.
  - repeat constructor.
  - vm_compute. reflexivity.
Defined.

Lemma index_field_width (i : nat) :
  (i < 100)%nat -> String.length (Py.rjust 2 (Py.str_of_nat i)) = 2%nat.
Proof.
  intros H.
  assert (A : forallb
                (fun k => String.length (Py.rjust 2 (Py.str_of_nat k)) =? 2)%nat
                (seq 0 100) = true) by (vm_compute; reflexivity).
  rewrite forallb_forall in A.
  apply Nat.eqb_eq, A, in_seq. lia.
Qed.

(** In a plan of at most 99 slides the titles of the slide structure are
    aligned: every slide line is a prefix of 22 characters, which holds the
    index and the type tag, followed by the title. *)
Theorem slide_titles_are_aligned (i : nat) (slide : Slide) :
  (i < 100)%nat ->
  slide_line i slide = slide_line_prefix i slide ++ slide_title slide /\
  String.length (slide_line_prefix i slide) = 22%nat.
Proof.
  intros H. unfold slide_line, slide_line_prefix. split.
  - now rewrite !append_assoc.
  - rewrite !length_append, (index_field_width i H).
    destruct slide; reflexivity.
Qed.

Lemma slide_titles_are_aligned_witness :
  String.length (slide_line_prefix 7 (ClosingSlide "" "Thank You" "")) = 22%nat.
Proof.
  apply (slide_titles_are_aligned 7 (ClosingSlide "" "Thank You" "")). lia.
Defined.

(* ================================================================= *)
(** ** The requests sent to the Slides API *)

Lemma created_slide_ids_app (a b : list Request) :
  created_slide_ids (a ++ b) = (created_slide_ids a ++ created_slide_ids b)%list.
Proof. unfold created_slide_ids. apply flat_map_app. Qed.

(** Splits a goal about [_create_slide_requests slide i] into the cases of
    the slide and of its optional texts. *)
Ltac slide_request_cases slide :=
  destruct slide; unfold _create_slide_requests;
  unfold _create_title_slide, _create_agenda_slide, _create_content_slide,
    _create_key_points_slide, _create_section_header_slide,
    _create_closing_slide;
  cbv zeta;
  try match goal with
      | |- context [match truthy_parts ?l with _ => _ end] =>
          let E := fresh "Eparts" in destruct (truthy_parts l) eqn:E
      end;
  try match goal with
      | |- context [if Py.truthy ?m then _ else _] =>
          let E := fresh "Etext" in destruct (Py.truthy m) eqn:E
      end.

Lemma created_slide_ids_slide (slide : Slide) (i : nat) :
  created_slide_ids (_create_slide_requests slide i) = [slide_object_id i].
Proof. slide_request_cases slide; reflexivity. Qed.

Lemma no_delete_in_slide (slide : Slide) (i : nat) :
  forallb (fun r => negb (is_deleteObject r)) (_create_slide_requests slide i)
    = true.
Proof. slide_request_cases slide; reflexivity. Qed.

Lemma slide_requests_ids (l : list Slide) (start : nat) :
  created_slide_ids
    (flat_map (fun '(i, slide) => _create_slide_requests slide i)
              (enumerate start l))
  = map slide_object_id (seq start (List.length l)).
Proof.
  revert start. induction l as [| slide l IH]; intros start;
    [reflexivity |].
  simpl. rewrite created_slide_ids_app, created_slide_ids_slide, IH.
  reflexivity.
Qed.

Lemma slide_requests_no_delete (l : list Slide) (start : nat) :
  forallb (fun r => negb (is_deleteObject r))
    (flat_map (fun '(i, slide) => _create_slide_requests slide i)
              (enumerate start l)) = true.
Proof.
  revert start. induction l as [| slide l IH]; intros start;
    [reflexivity |].
  simpl. rewrite forallb_app, no_delete_in_slide, IH. reflexivity.
Qed.

(** The batch creates one slide per slide of the plan, in order, under the
    ids [slide_0], [slide_1], ...; it ends with the one request that deletes
    the blank slide the presentation came with, so it is never empty, not
    even for a plan without slides. *)
Theorem batch_creates_each_slide_once (plan : PresentationPlan)
    (default_slide_id : string) :
  created_slide_ids (batch_requests plan default_slide_id)
    = map slide_object_id (seq 0 (List.length (slides plan))) /\
  batch_requests plan default_slide_id <> [] /\
  exists rs : list Request,
    batch_requests plan default_slide_id
      = (rs ++ [deleteObject default_slide_id])%list /\
    forallb (fun r => negb (is_deleteObject r)) rs = true.
Proof.
  unfold batch_requests. split; [| split].
  - rewrite created_slide_ids_app, slide_requests_ids. simpl.
    now rewrite app_nil_r.
  - intros E. apply app_eq_nil in E as [_ E]. discriminate.
  - eexists. split; [reflexivity |]. apply slide_requests_no_delete.
Qed.

Lemma existsb_incl (f : string -> bool) (known known' : list string) :
  incl known known' -> existsb f known = true -> existsb f known' = true.
Proof.
  intros Hincl H. apply existsb_exists in H as [x [Hin Hf]].
  apply existsb_exists. exists x. auto.
Qed.

Lemma inserts_into_created_app (a b : list Request) (known : list string) :
  inserts_into_created known a = true ->
  (forall known' : list string,
     incl known known' -> inserts_into_created known' b = true) ->
  inserts_into_created known (a ++ b) = true.
Proof.
  revert known. induction a as [| r a IH]; intros known Ha Hb.
  - apply Hb. apply incl_refl.
  - destruct r as [oid layout maps | oid text | oid]; simpl in *.
    + apply IH; [exact Ha |].
      intros known' Hincl. apply Hb.
      intros x Hx. apply Hincl. apply in_or_app. now right.
    + apply andb_true_iff in Ha as [H1 H2].
      rewrite H1. simpl. now apply IH.
    + now apply IH.
Qed.

Lemma inserts_into_created_slide (slide : Slide) (i : nat)
    (known : list string) :
  inserts_into_created known (_create_slide_requests slide i) = true.
Proof.
  slide_request_cases slide; simpl;
    rewrite ?String.eqb_refl, ?orb_true_r; reflexivity.
Qed.

Lemma inserts_into_created_slides (l : list Slide) (start : nat)
    (tail : list Request) (known : list string) :
  (forall known' : list string, inserts_into_created known' tail = true) ->
  inserts_into_created known
    (flat_map (fun '(i, slide) => _create_slide_requests slide i)
              (enumerate start l) ++ tail) = true.
Proof.
  intros Htail. revert start known.
  induction l as [| slide l IH]; intros start known; simpl.
  - apply Htail.
  - rewrite <- app_assoc. apply inserts_into_created_app.
    + apply inserts_into_created_slide.
    + intros known' _. apply IH.
Qed.

(** Every [insertText] of the batch writes into a placeholder that an
    earlier [createSlide] of the same batch has mapped: no text is sent to
    an object that does not exist. *)
Theorem batch_inserts_into_created_placeholders (plan : PresentationPlan)
    (default_slide_id : string) :
  inserts_into_created [] (batch_requests plan default_slide_id) = true.
Proof.
  unfold batch_requests. apply inserts_into_created_slides.
  intros known'. reflexivity.
Qed.

Lemma slide_requests_ignore_notes (notes : string) (slide : Slide) (i : nat) :
  _create_slide_requests (with_speaker_notes notes slide) i
    = _create_slide_requests slide i.
Proof. destruct slide; reflexivity. Qed.

Lemma enumerate_map_requests (notes : string) (l : list Slide) (start : nat) :
  flat_map (fun '(i, slide) => _create_slide_requests slide i)
           (enumerate start (map (with_speaker_notes notes) l))
  = flat_map (fun '(i, slide) => _create_slide_requests slide i)
             (enumerate start l).
Proof.
  revert start. induction l as [| slide l IH]; intros start;
    [reflexivity |].
  simpl. now rewrite slide_requests_ignore_notes, IH.
Qed.

(** Speaker notes never reach the Slides API: the batch of a plan is the
    batch of the same plan with any other speaker notes, and so is the
    result of [create_presentation]. *)
Theorem speaker_notes_are_not_rendered (api : SlidesApi) (notes : string)
    (plan : PresentationPlan) (default_slide_id : string) :
  batch_requests (plan_with_speaker_notes notes plan) default_slide_id
    = batch_requests plan default_slide_id /\
  create_presentation api (plan_with_speaker_notes notes plan)
    = create_presentation api plan.
Proof.
  assert (E : forall d : string,
            batch_requests (plan_with_speaker_notes notes plan) d
            = batch_requests plan d).
  { intros d. unfold batch_requests, plan_with_speaker_notes. simpl.
    now rewrite enumerate_map_requests. }
  split; [apply E |].
  unfold create_presentation.
  change (title (plan_with_speaker_notes notes plan)) with (title plan).
  destruct (presentations_create api (title plan)) as [[pid d] | e];
    [| reflexivity].
  rewrite E.
  unfold plan_with_speaker_notes at 1. simpl slides.
  now rewrite length_map.
Qed.

Lemma key_point_lines_untitled (point : list (string * string)) :
  has_point_title point = false -> key_point_lines point = [].
Proof.
  unfold has_point_title, key_point_lines. now intros ->.
Qed.

Lemma key_point_lines_filter (points : list (list (string * string))) :
  flat_map key_point_lines (filter has_point_title points)
    = flat_map key_point_lines points.
Proof.
  induction points as [| point points IH]; [reflexivity |].
  simpl. destruct (has_point_title point) eqn:E; simpl.
  - now rewrite IH.
  - now rewrite (key_point_lines_untitled point E), IH.
Qed.

(** A key point without a title, or with an empty one, is left out of the
    slide together with its description: the requests are those of the
    slide with only its titled points. *)
Theorem untitled_key_points_are_dropped (title_text slide_id : string)
    (points : list (list (string * string))) :
  _create_key_points_slide title_text points slide_id
    = _create_key_points_slide title_text (filter has_point_title points)
        slide_id.
Proof.
  unfold _create_key_points_slide. cbv zeta.
  now rewrite key_point_lines_filter.
Qed.

Lemma append_inv_head (a x y : string) : a ++ x = a ++ y -> x = y.
Proof.
  induction a as [| c a IH]; simpl; [trivial |].
  intros [= H]. now apply IH.
Qed.

Lemma join_nonempty (sep first : string) (others : list string) :
  Py.truthy first = true -> Py.join sep (first :: others) <> "".
Proof.
  destruct first as [| c r]; [discriminate |].
  intros _. simpl. destruct others; discriminate.
Qed.

(** Whenever a text is written into the subtitle placeholder of a slide
    (the subtitle, author and date of a title slide, the message of a
    closing slide), that text is not empty: with nothing to show the
    request is left out. *)
Theorem subtitle_text_is_never_empty (slide : Slide) (i : nat)
    (text : string) :
  In (insertText (slide_object_id i ++ "_subtitle") text)
     (_create_slide_requests slide i) ->
  text <> "".
Proof.
  slide_request_cases slide; cbn [In List.app]; intros H;
    repeat
      match goal with
      | H : _ \/ _ |- _ => destruct H as [H | H]
      | H : False |- _ => destruct H
      | H : createSlide _ _ _ = insertText _ _ |- _ => discriminate H
      | H : insertText ?x _ = insertText ?x _ |- _ => injection H as <-
      | H : insertText (?a ++ _) _ = insertText (?a ++ _) _ |- _ =>
          let E := fresh "E" in
          exfalso; injection H as E _; apply append_inv_head in E;
          discriminate E
      end.
  - change (Py.join Py.nl (s :: l) <> ""). apply join_nonempty.
    assert (Hin : In s (truthy_parts [subtitle; author; date]))
      by (rewrite Eparts; now left).
    unfold truthy_parts in Hin. now apply filter_In in Hin.
  - intros ->. discriminate.
Qed.

Lemma subtitle_text_is_never_empty_witness :
  "2026" <> "".
Proof.
  apply (subtitle_text_is_never_empty
           (TitleSlide "" "Cloud Migration" "" "" "2026") 0 "2026").
  vm_compute. right. right. left. reflexivity.
Defined.

(** [create_presentation] always sends the batch, for a plan without slides
    too; an exception of either call comes out unchanged; otherwise the
    result carries the presentation id, the edit link made of it, the plan
    title and [len(plan.slides)]. *)
Theorem create_presentation_outcome (api : SlidesApi)
    (plan : PresentationPlan) :
  create_presentation api plan =
    match presentations_create api (title plan) with
    | Raised e => Raised e
    | Returned (presentation_id, default_slide_id) =>
        match presentations_batchUpdate api presentation_id
                (batch_requests plan default_slide_id) with
        | Raised e => Raised e
        | Returned _ =>
            Returned
              {| result_presentation_id := presentation_id;
                 result_url :=
                   "https://docs.google.com/presentation/d/"
                     ++ presentation_id ++ "/edit";
                 result_title := title plan;
                 result_slide_count := get_slide_count plan |}
        end
    end.
Proof.
  unfold create_presentation.
  destruct (presentations_create api (title plan)) as [[pid d] | e];
    [| reflexivity].
  destruct (batch_requests plan d) as [| r rs] eqn:E; [| reflexivity].
  unfold batch_requests in E. apply app_eq_nil in E as [_ E]. discriminate.
Qed.

Lemma string_of_uint_inj (d1 d2 : uint) :
  NilEmpty.string_of_uint d1 = NilEmpty.string_of_uint d2 -> d1 = d2.
Proof.
  intros E. pose proof (NilEmpty.usu d1) as H1.
  rewrite E, NilEmpty.usu in H1. now injection H1 as ->.
Qed.

(** An object id made of a slide id and a suffix that does not begin with a
    digit determines the slide and the suffix. *)
Lemma object_id_inj (i j : nat) (s1 s2 : string) :
  fst (span_digits s1) = "" -> fst (span_digits s2) = "" ->
  slide_object_id i ++ s1 = slide_object_id j ++ s2 -> i = j /\ s1 = s2.
Proof.
  intros H1 H2 E. unfold slide_object_id in E.
  rewrite !append_assoc in E. apply append_inv_head in E.
  apply (f_equal span_digits) in E. unfold Py.str_of_nat in E.
  rewrite !span_digits_uint in E by assumption.
  injection E as Ed Es. split; [| exact Es].
  apply DecimalNat.Unsigned.to_uint_inj. now apply string_of_uint_inj.
Qed.

(** The ids that the requests of one slide create: the slide id followed by
    one of a few suffixes, each at most once. *)
Lemma created_ids_slide (slide : Slide) (i : nat) :
  exists suffixes : list string,
    flat_map created_ids (_create_slide_requests slide i)
      = map (fun suffix => slide_object_id i ++ suffix) suffixes /\
    NoDup suffixes /\
    Forall (fun suffix => fst (span_digits suffix) = "") suffixes.
Proof.
  assert (E : slide_object_id i = slide_object_id i ++ "")
    by (now rewrite append_empty_r).
  assert (N3 : forall a b : string,
            a <> "" -> b <> "" -> a <> b -> NoDup [""; a; b]).
  { intros a b Ha Hb Hab. repeat constructor; simpl; intuition congruence. }
  slide_request_cases slide; cbn [flat_map created_ids map snd List.app];
    try (exists [""; "_title"; "_subtitle"];
         split; [cbn [map]; now rewrite <- E |];
         split; [apply N3; discriminate | repeat constructor]);
    try (exists [""; "_title"; "_body"];
         split; [cbn [map]; now rewrite <- E |];
         split; [apply N3; discriminate | repeat constructor]);
    try (exists [""; "_title"];
         split; [cbn [map]; now rewrite <- E |];
         split; [| repeat constructor];
         repeat constructor; simpl; intuition discriminate).
Qed.

Lemma created_ids_slides (l : list Slide) (start : nat) :
  NoDup (flat_map created_ids
           (flat_map (fun '(i, slide) => _create_slide_requests slide i)
                     (enumerate start l))) /\
  (forall x : string,
     In x (flat_map created_ids
             (flat_map (fun '(i, slide) => _create_slide_requests slide i)
                       (enumerate start l))) ->
     exists (j : nat) (suffix : string),
       (start <= j)%nat /\ fst (span_digits suffix) = "" /\
       x = slide_object_id j ++ suffix).
Proof.
  revert start. induction l as [| slide l IH]; intros start.
  - split; [constructor | intros x []].
  - destruct (IH (S start)) as [Hnd Hform].
    destruct (created_ids_slide slide start) as (sufs & Eids & Hsufs & Hdig).
    cbn [enumerate flat_map]. rewrite flat_map_app, Eids.
    assert (Hhere : forall x : string,
              In x (map (fun suffix => slide_object_id start ++ suffix) sufs) ->
              exists suffix : string,
                fst (span_digits suffix) = "" /\
                x = slide_object_id start ++ suffix).
    { intros x Hx. apply in_map_iff in Hx as (suf & <- & Hin).
      exists suf. split; [| reflexivity].
      rewrite Forall_forall in Hdig. now apply Hdig. }
    split.
    + apply NoDup_app.
      * clear Hhere Hdig Eids. induction Hsufs as [| suf sufs Hnin _ IHs];
          [constructor |].
        cbn [map]. constructor; [| exact IHs].
        intros Hin. apply in_map_iff in Hin as (suf' & E' & Hin').
        apply append_inv_head in E'. now subst suf'.
      * exact Hnd.
      * intros x Hx Hx'.
        destruct (Hhere x Hx) as (s1 & Hs1 & ->).
        destruct (Hform _ Hx') as (j & s2 & Hj & Hs2 & E2).
        destruct (object_id_inj start j s1 s2 Hs1 Hs2 E2) as [Hij _]. lia.
    + intros x Hx. apply in_app_or in Hx as [Hx | Hx].
      * destruct (Hhere x Hx) as (s1 & Hs1 & ->).
        exists start, s1. auto.
      * destruct (Hform _ Hx) as (j & s2 & Hj & Hs2 & E2).
        exists j, s2. split; [lia | auto].
Qed.

(** The object ids that a batch creates, slides and placeholders together,
    are pairwise different, however many slides the plan has. *)
Theorem batch_object_ids_are_distinct (plan : PresentationPlan)
    (default_slide_id : string) :
  NoDup (flat_map created_ids (batch_requests plan default_slide_id)).
Proof.
  unfold batch_requests. rewrite flat_map_app. simpl.
  rewrite app_nil_r. apply created_ids_slides.
Qed.

(* ================================================================= *)
(** ** The review message *)

Lemma join_app (sep : string) (a b : list string) :
  a <> [] -> b <> [] ->
  Py.join sep (a ++ b) = Py.join sep a ++ sep ++ Py.join sep b.
Proof.
  intros Ha Hb. induction a as [| x a IH]; [now destruct Ha |].
  destruct a as [| y a].
  - simpl. destruct b; [now destruct Hb | reflexivity].
  - change (Py.join sep ((x :: y :: a) ++ b))
      with (x ++ sep ++ Py.join sep ((y :: a) ++ b)).
    rewrite IH by discriminate.
    change (Py.join sep (x :: y :: a)) with (x ++ sep ++ Py.join sep (y :: a)).
    now rewrite !append_assoc.
Qed.

(** With a plan in the state, [present_for_review] writes nothing but one
    message, and that message ends with the line that tells how many
    revisions are left, [max_revisions - revision_count]. *)
Theorem review_message_shows_remaining_revisions
    (json : list (string * string) -> string) (state : AgentState)
    (plan : PresentationPlan) :
  presentation_plan state = Some plan ->
  exists before : string,
    present_for_review json state
      = [ W_messages
            [AIMessage
               (before ++ "Revisiones restantes: "
                  ++ Py.str_of_int (max_revisions state - revision_count state)
                  ++ Py.nl)] ].
Proof.
  intros Hplan. unfold present_for_review. rewrite Hplan. cbv zeta.
  unfold REVIEW_PLAN_TEMPLATE.
  match goal with
  | |- context [Py.join Py.nl (?a :: ?b :: ?c :: ?d :: ?e :: ?f :: ?g :: ?h
                                 :: ?i :: ?j :: ?k :: ?l :: ?m :: ?n :: ?rest)] =>
      change (a :: b :: c :: d :: e :: f :: g :: h :: i :: j :: k :: l :: m
                :: n :: rest)
        with ([a; b; c; d; e; f; g; h; i; j; k; l; m; n] ++ rest)%list;
      rewrite (join_app Py.nl [a; b; c; d; e; f; g; h; i; j; k; l; m; n] rest)
        by discriminate;
      exists (Py.join Py.nl [a; b; c; d; e; f; g; h; i; j; k; l; m; n] ++ Py.nl)
  end.
  do 3 f_equal.
  change (Py.join Py.nl
            [ "Revisiones restantes: "
                ++ Py.str_of_int (max_revisions state - revision_count state);
              "" ])
    with (("Revisiones restantes: "
             ++ Py.str_of_int (max_revisions state - revision_count state))
            ++ Py.nl ++ "").
  now rewrite !append_assoc, append_empty_r.
Qed.

Lemma review_message_shows_remaining_revisions_witness :
  exists before : string,
    present_for_review no_json (draft_state "" 2)
      = [ W_messages
            [AIMessage (before ++ "Revisiones restantes: " ++ "3" ++ Py.nl)] ].
Proof.
  apply (review_message_shows_remaining_revisions no_json (draft_state "" 2)
           sample_plan).
  reflexivity.
Defined.
